(** * DocuMitra: the mock document processor of [streamlit_app.py]

    A shallow embedding of [MockDocumentProcessor] (department scores,
    priority, summaries) and of the table assembly of [main], with the
    properties of the ranked department table.

    Conventions of the model.
    - A Python [str] is a [string] of ASCII characters; [lower] maps the
      letters A..Z to a..z and keeps every other character, which is what
      [str.lower] does on ASCII text.
    - A Python [dict] is an association list in insertion order, the order in
      which Python iterates it.
    - The scores are the two-digit decimal literals of the source, read as
      rationals.  Rounding a decimal literal to the nearest double is monotone
      and distinct two-digit literals give distinct doubles, so comparing the
      rationals agrees with comparing the floats of the program. *)

From Stdlib Require Import List String Ascii Bool Arith ZArith NArith QArith Lia Lqa.
From Stdlib Require Import Qround Permutation Sorting.Sorted DecimalString.
Import ListNotations.

Local Open Scope string_scope.
Local Open Scope list_scope.

(** ** Python strings *)

Module Str.

(** [c.lower()] for one ASCII character. *)
Definition lower_ascii (c : ascii) : ascii :=
  let n := nat_of_ascii c in
  if (65 <=? n)%nat && (n <=? 90)%nat then ascii_of_nat (n + 32) else c.

(** [s.lower()]. *)
Fixpoint lower (s : string) : string :=
  match s with
  | EmptyString => EmptyString
  | String c s' => String (lower_ascii c) (lower s')
  end.

(** [s.startswith(p)]. *)
Fixpoint startswith (p s : string) : bool :=
  match p, s with
  | EmptyString, _ => true
  | String _ _, EmptyString => false
  | String a p', String b s' => Ascii.eqb a b && startswith p' s'
  end.

(** [sub in s]: [sub] occurs in [s] as a contiguous substring. *)
Fixpoint contains (sub s : string) : bool :=
  startswith sub s ||
  match s with
  | EmptyString => false
  | String _ s' => contains sub s'
  end.

(** [s.replace(old, new)]: every occurrence of [old], found from the left and
    without overlap, becomes [new].  [skip] counts the characters of an
    occurrence that are still to be dropped.  With an empty [old], Python puts
    [new] before every character and at the end. *)
Fixpoint replace_from (old new : string) (skip : nat) (s : string) : string :=
  match s with
  | EmptyString => EmptyString
  | String c s' =>
      match skip with
      | S k => replace_from old new k s'
      | O =>
          if startswith old s
          then new ++ replace_from old new (String.length old - 1) s'
          else String c (replace_from old new 0 s')
      end
  end.

Fixpoint intersperse (new s : string) : string :=
  match s with
  | EmptyString => new
  | String c s' => new ++ String c (intersperse new s')
  end.

Definition replace (old new s : string) : string :=
  match old with
  | EmptyString => intersperse new s
  | String _ _ => replace_from old new 0 s
  end.

(** [s.endswith(suffix)]: some tail of [s] is [suffix]. *)
Fixpoint endswith (suffix s : string) : bool :=
  String.eqb suffix s ||
  match s with
  | EmptyString => false
  | String _ s' => endswith suffix s'
  end.

End Str.

(** ** Python dictionaries and lists *)

Module Py.

Section Dict.
Context {V : Type}.

(** A [dict] with [str] keys, in insertion order. *)
Definition dict := list (string * V).

(** [d.get(k)], [None] when the key is absent. *)
Fixpoint get (d : dict) (k : string) : option V :=
  match d with
  | [] => None
  | (k', v) :: d' => if String.eqb k' k then Some v else get d' k
  end.

(** [d.get(k, default)]. *)
Definition get_default (d : dict) (k : string) (default : V) : V :=
  match get d k with
  | Some v => v
  | None => default
  end.

(** Iterating a dictionary yields its keys. *)
Definition keys (d : dict) : list string := map fst d.

(** [d.items()]. *)
Definition items (d : dict) : list (string * V) := d.
End Dict.

Arguments dict V : clear implicits.

(** [l.index(x)]: the first position of [x]; [None] stands for [ValueError]. *)
Fixpoint index (l : list string) (x : string) : option nat :=
  match l with
  | [] => None
  | y :: l' =>
      if String.eqb y x then Some 0%nat
      else match index l' x with
           | Some n => Some (S n)
           | None => None
           end
  end.

(** [enumerate(l, start)]. *)
Fixpoint enumerate {A : Type} (l : list A) (start : nat) : list (nat * A) :=
  match l with
  | [] => []
  | x :: l' => (start, x) :: enumerate l' (S start)
  end.

(** Strict comparison of rationals, as a boolean. *)
Definition Qltb (x y : Q) : bool :=
  match Qcompare x y with
  | Lt => true
  | _ => false
  end.

Section MaxSorted.
Context {A : Type}.

(** [a > b] on two key values; a key of [None] cannot be compared with a
    number ([TypeError]), which is the outer [None]. *)
Definition gt_key (a b : option Q) : option bool :=
  match a, b with
  | Some x, Some y => Some (Qltb y x)
  | _, _ => None
  end.

(** The loop of [max(iterable, key=...)]: the item kept is replaced only by
    an item whose key is strictly greater. *)
Fixpoint max_loop (key : A -> option Q) (rest : list A)
         (maxitem : A) (maxval : option Q) : option A :=
  match rest with
  | [] => Some maxitem
  | item :: rest' =>
      let val := key item in
      match gt_key val maxval with
      | None => None
      | Some true => max_loop key rest' item val
      | Some false => max_loop key rest' maxitem maxval
      end
  end.

(** [max(l, key=key)]; [None] for the [ValueError] of an empty argument or
    for a failed comparison. *)
Definition max (key : A -> option Q) (l : list A) : option A :=
  match l with
  | [] => None
  | x :: rest => max_loop key rest x (key x)
  end.

(** [sorted] is stable: items with equal keys keep their relative order,
    also with [reverse=True].  Every stable sort computes the same list;
    this one is an insertion sort.  [leb x y] says that [x] may stand
    before [y]. *)
Fixpoint insert_sorted (leb : A -> A -> bool) (x : A) (l : list A) : list A :=
  match l with
  | [] => [x]
  | y :: l' => if leb x y then x :: l else y :: insert_sorted leb x l'
  end.

Fixpoint stable_sort (leb : A -> A -> bool) (l : list A) : list A :=
  match l with
  | [] => []
  | x :: l' => insert_sorted leb x (stable_sort leb l')
  end.

(** [sorted(l, key=key, reverse=reverse)]. *)
Definition sorted (l : list A) (key : A -> Q) (reverse : bool) : list A :=
  stable_sort
    (if reverse
     then fun x y => Qle_bool (key y) (key x)
     else fun x y => Qle_bool (key x) (key y))
    l.
End MaxSorted.

End Py.

(** ** The mock processor *)

Record MockDocumentProcessor : Type := {
  departments : list string;
  priorities : list string
}.

(** [MockDocumentProcessor.__init__]. *)
Definition init : MockDocumentProcessor := {|
  departments :=
    ["Engineering Drawings"; "Legal Opinions"; "Finance"; "HR Policies";
     "Safety Circulars"; "Board Meeting Minutes"; "Maintenance Job Cards";
     "Incident Reports"; "Vendor Invoices"; "Purchase Order Correspondence";
     "Regulatory Directives"];
  priorities := ["high"; "medium"; "low"]
|}.

(** The text that [extract_text] makes up for a file it does not read. *)
Definition sample_text (filename : string) : string :=
  "Sample document content from " ++ filename
  ++ ". This document contains information about various departments including engineering, legal, finance, HR, and safety protocols.".

(** [extract_text]: the text and its language.  [decode] stands for
    [bytes.decode('utf-8')], with [None] for [UnicodeDecodeError]; the
    exception is not caught, so it is the outcome of [extract_text] too. *)
Definition extract_text (decode : list Byte.byte -> option string)
           (self : MockDocumentProcessor)
           (file_content : list Byte.byte) (filename : string)
  : option (string * string) :=
  if Str.endswith ".txt" filename
  then match decode file_content with
       | Some text => Some (text, "en")
       | None => None
       end
  else Some (sample_text filename, "en").

(** The dictionary literal [dept_scores] of [classify_department]. *)
Definition dept_scores (text : string) : Py.dict Q :=
  let text_lower := Str.lower text in
  [ ("Engineering Drawings",
       if Str.contains "engineering" text_lower then 0.85 else 0.30);
    ("Legal Opinions",
       if Str.contains "legal" text_lower then 0.80 else 0.25);
    ("Finance",
       if Str.contains "finance" text_lower then 0.75 else 0.35);
    ("HR Policies",
       if Str.contains "hr" text_lower then 0.70 else 0.28);
    ("Safety Circulars",
       if Str.contains "safety" text_lower then 0.90 else 0.40);
    ("Board Meeting Minutes",
       if Str.contains "board" text_lower then 0.85 else 0.32);
    ("Maintenance Job Cards",
       if Str.contains "maintenance" text_lower then 0.65 else 0.22);
    ("Incident Reports",
       if Str.contains "incident" text_lower then 0.75 else 0.26);
    ("Vendor Invoices",
       if Str.contains "vendor" text_lower then 0.70 else 0.24);
    ("Purchase Order Correspondence",
       if Str.contains "purchase" text_lower then 0.68 else 0.20);
    ("Regulatory Directives",
       if Str.contains "regulatory" text_lower then 0.72 else 0.18) ]%Q.

(** [classify_department]: the primary department, its score and the whole
    score dictionary.  [None] stands for an exception of [max] or of the
    lookup [dept_scores[primary_dept]]. *)
Definition classify_department (self : MockDocumentProcessor) (text : string)
  : option (string * Q * Py.dict Q) :=
  let scores := dept_scores text in
  match Py.max (Py.get scores) (Py.keys scores) with
  | None => None
  | Some primary_dept =>
      match Py.get scores primary_dept with
      | None => None
      | Some s => Some (primary_dept, s, scores)
      end
  end.

(** [classify_priority]: the level and its confidence. *)
Definition classify_priority (self : MockDocumentProcessor) (text : string)
  : string * Q :=
  let text_lower := Str.lower text in
  if Str.contains "urgent" text_lower then ("High", 0.9%Q)
  else if Str.contains "important" text_lower then ("Medium", 0.7%Q)
  else ("Low", 0.6%Q).

(** [generate_summary]: per department, a dictionary with the field
    ['detailed']. *)
Definition generate_summary (self : MockDocumentProcessor) (text : string)
  : Py.dict (Py.dict string) :=
  [ ("Engineering Drawings",
       [("detailed", "Technical specifications and engineering requirements document")]);
    ("Legal Opinions",
       [("detailed", "Legal analysis and compliance documentation")]);
    ("Finance",
       [("detailed", "Financial analysis and budget planning document")]);
    ("HR Policies",
       [("detailed", "Human resources policies and procedures")]);
    ("Safety Circulars",
       [("detailed", "Safety protocols and emergency procedures")]);
    ("Board Meeting Minutes",
       [("detailed", "Board meeting discussions and resolutions")]);
    ("Maintenance Job Cards",
       [("detailed", "Equipment maintenance and service records")]);
    ("Incident Reports",
       [("detailed", "Incident documentation and investigation reports")]);
    ("Vendor Invoices",
       [("detailed", "Vendor payment and invoice processing")]);
    ("Purchase Order Correspondence",
       [("detailed", "Purchase order and procurement communications")]);
    ("Regulatory Directives",
       [("detailed", "Regulatory compliance and directive documentation")]) ].

(** ** The department table of [main] *)

(** One entry of [table_data]; the fields are the keys ['Sr. No.'],
    ['Department Name'], ['Relevance Score'], ['Summary'], ['Download Link']. *)
Record Row : Type := {
  sr_no : nat;
  department_name : string;
  relevance_score : string;
  summary : string;
  download_link : string
}.

(** Rounding to the nearest integer, a tie to the even one. *)
Definition round_half_even (q : Q) : Z :=
  let f := Qfloor q in
  match Qcompare (q - inject_Z f) (1 # 2) with
  | Lt => f
  | Gt => (f + 1)%Z
  | Eq => if Z.even f then f else (f + 1)%Z
  end.

Definition decimal (n : Z) : string :=
  NilZero.string_of_uint (N.to_uint (Z.to_N n)).

(** [f"{score:.2%}"]: the score as a percentage with two decimals. *)
Definition format_percent (score : Q) : string :=
  let n := round_half_even (score * 10000) in
  let a := Z.abs n in
  (if (n <? 0)%Z then "-" else "")
  ++ decimal (a / 100)
  ++ "."
  ++ (if (a mod 100 <? 10)%Z then "0" else "") ++ decimal (a mod 100)
  ++ "%".

(** [summaries.get(dept_name, {}).get('detailed', 'No summary available')]. *)
Definition dept_summary (summaries : Py.dict (Py.dict string))
           (dept_name : string) : string :=
  Py.get_default (Py.get_default summaries dept_name []) "detailed"
                 "No summary available".

(** [f"#{dept_name.replace(' ', '_')}"]. *)
Definition download_url (dept_name : string) : string :=
  "#" ++ Str.replace " " "_" dept_name.

(** [sorted(all_dept_scores.items(), key=lambda x: x[1], reverse=True)]. *)
Definition sorted_depts (all_dept_scores : Py.dict Q) : list (string * Q) :=
  Py.sorted (Py.items all_dept_scores) snd true.

(** The loop that fills [table_data]. *)
Definition table_data (all_dept_scores : Py.dict Q)
           (summaries : Py.dict (Py.dict string)) : list Row :=
  map (fun '(i, (dept_name, score)) =>
         {| sr_no := i;
            department_name := dept_name;
            relevance_score := format_percent score;
            summary := dept_summary summaries dept_name;
            download_link := download_url dept_name |})
      (Py.enumerate (sorted_depts all_dept_scores) 1).

(** What one press of "Process Document" computes from the extracted text. *)
Record Result : Type := {
  primary_department : string;
  primary_confidence : Q;
  all_dept_scores : Py.dict Q;
  priority : string * Q;
  summaries : Py.dict (Py.dict string);
  table : list Row
}.

(** [get_processor] under [st.cache_resource]: the processor is built on the
    first call and the same object is handed out afterwards.  The cache is
    the only state that outlives a run. *)
Definition get_processor (cache : option MockDocumentProcessor)
  : MockDocumentProcessor * option MockDocumentProcessor :=
  match cache with
  | Some processor => (processor, cache)
  | None => (init, Some init)
  end.

(** The body of [main] from the extracted text on, as a state passing
    function over the resource cache.  [None] stands for an exception. *)
Definition process (extracted_text : string)
           (cache : option MockDocumentProcessor)
  : option Result * option MockDocumentProcessor :=
  let (processor, cache') := get_processor cache in
  match classify_department processor extracted_text with
  | None => (None, cache')
  | Some (primary, confidence, scores) =>
      let prio := classify_priority processor extracted_text in
      let sums := generate_summary processor extracted_text in
      (Some {| primary_department := primary;
               primary_confidence := confidence;
               all_dept_scores := scores;
               priority := prio;
               summaries := sums;
               table := table_data scores sums |},
       cache')
  end.

(** The table shown for a text. *)
Definition ranked_table (text : string) : list Row :=
  table_data (dept_scores text) (generate_summary init text).

(** The same with the extraction in front: what [main] does with an
    uploaded file once the button is pressed.  The language comes with the
    result. *)
Definition process_document (decode : list Byte.byte -> option string)
           (file_content : list Byte.byte) (filename : string)
           (cache : option MockDocumentProcessor)
  : option (Result * string) * option MockDocumentProcessor :=
  let (processor, cache') := get_processor cache in
  match extract_text decode processor file_content filename with
  | None => (None, cache')
  | Some (extracted_text, language) =>
      match classify_department processor extracted_text with
      | None => (None, cache')
      | Some (primary, confidence, scores) =>
          let prio := classify_priority processor extracted_text in
          let sums := generate_summary processor extracted_text in
          (Some ({| primary_department := primary;
                    primary_confidence := confidence;
                    all_dept_scores := scores;
                    priority := prio;
                    summaries := sums;
                    table := table_data scores sums |},
                 language),
           cache')
      end
  end.

(** Several texts processed one after the other in one session, each run
    starting from the cache the run before left. *)
Fixpoint process_all (texts : list string)
         (cache : option MockDocumentProcessor)
  : list (option Result) * option MockDocumentProcessor :=
  match texts with
  | [] => ([], cache)
  | text :: texts' =>
      let (result, cache') := process text cache in
      let (results, cache'') := process_all texts' cache' in
      (result :: results, cache'')
  end.

(** ** Notions used by the properties *)

(** [before l x y]: [x] stands at an earlier position of [l] than [y]. *)
Definition before {A : Type} (l : list A) (x y : A) : Prop :=
  exists l1 l2 l3, l = l1 ++ x :: l2 ++ y :: l3.

(** The order of the output of the stable sort: [x] may stand before [y],
    and when [y] may stand before [x] as well the input order decides. *)
Definition stable_order {A : Type} (leb : A -> A -> bool) (l : list A)
           (x y : A) : Prop :=
  leb x y = true /\ (leb y x = true -> before l x y).

(** [first_max f l m]: [m] is an item of [l] whose value [f m] is greatest,
    and the first such item: every earlier item has a strictly smaller
    value. *)
Definition first_max {A : Type} (f : A -> Q) (l : list A) (m : A) : Prop :=
  exists l1 l2,
    l = l1 ++ m :: l2
    /\ Forall (fun y => f y < f m) l1
    /\ Forall (fun y => f y <= f m) l2.

(** The comparison that [sorted_depts] sorts with: the greater score
    first. *)
Definition by_score_desc (x y : string * Q) : bool :=
  Qle_bool (snd y) (snd x).

(** No string occurs twice in [l]. *)
Fixpoint distinct (l : list string) : bool :=
  match l with
  | [] => true
  | x :: l' => negb (existsb (String.eqb x) l') && distinct l'
  end.

(** The order of the levels: [priorities] lists them from the most urgent to
    the least, so a level is higher when its name stands earlier there. *)
Definition priority_index (self : MockDocumentProcessor) (level : string)
  : option nat :=
  Py.index (priorities self) (Str.lower level).

(** The characters that need no escaping in a URL (RFC 3986, unreserved). *)
Definition unreserved (c : ascii) : bool :=
  let n := nat_of_ascii c in
  ((65 <=? n) && (n <=? 90) || (97 <=? n) && (n <=? 122)
   || (48 <=? n) && (n <=? 57)
   || (n =? 45) || (n =? 46) || (n =? 95) || (n =? 126))%nat.

(** A fragment link: [#] followed by unreserved characters only. *)
Definition url_safe (link : string) : bool :=
  match link with
  | String "#" rest => forallb unreserved (list_ascii_of_string rest)
  | _ => false
  end.

(** The word that [dept_scores] looks for, per department. *)
Definition keyword_table : Py.dict string :=
  [ ("Engineering Drawings", "engineering"); ("Legal Opinions", "legal");
    ("Finance", "finance"); ("HR Policies", "hr");
    ("Safety Circulars", "safety"); ("Board Meeting Minutes", "board");
    ("Maintenance Job Cards", "maintenance");
    ("Incident Reports", "incident"); ("Vendor Invoices", "vendor");
    ("Purchase Order Correspondence", "purchase");
    ("Regulatory Directives", "regulatory") ].

(** The text mentions the word of the department, in any letter case. *)
Definition mentioned (text dept : string) : bool :=
  match Py.get keyword_table dept with
  | Some keyword => Str.contains keyword (Str.lower text)
  | None => false
  end.

(** The character [c] does not occur in [s]. *)
Definition absent (c : ascii) (s : string) : bool :=
  forallb (fun x => negb (Ascii.eqb x c)) (list_ascii_of_string s).

(** ** Sample runs *)

Example lower_mixed : Str.lower "An URGENT Memo-42" = "an urgent memo-42".
Proof. reflexivity. Qed.

Example contains_hr : Str.contains "hr" (Str.lower "Three reports") = true.
Proof. reflexivity. Qed.

Example replace_spaces :
  Str.replace " " "_" "Board Meeting Minutes" = "Board_Meeting_Minutes".
Proof. reflexivity. Qed.

Example replace_word : Str.replace "ab" "x" "cababab!" = "cxxx!".
Proof. reflexivity. Qed.

Example classify_department_sample :
  classify_department init "Legal note for the finance board"
  = Some ("Board Meeting Minutes", 0.85%Q,
          dept_scores "Legal note for the finance board").
Proof. reflexivity. Qed.

Example format_percent_sample : format_percent 0.85 = "85.00%".
Proof. reflexivity. Qed.

Example format_percent_small : format_percent 0.07 = "7.00%".
Proof. reflexivity. Qed.

Example ranked_table_head :
  map department_name (ranked_table "Finance and legal: an incident at the board")
  = ["Board Meeting Minutes"; "Legal Opinions"; "Finance"; "Incident Reports";
     "Safety Circulars"; "Engineering Drawings"; "HR Policies";
     "Vendor Invoices"; "Maintenance Job Cards";
     "Purchase Order Correspondence"; "Regulatory Directives"].
Proof. vm_compute. reflexivity. Qed.

(** ** Facts about strings *)

Section StrFacts.

Lemma startswith_lower (p s : string) :
  Str.startswith p s = true ->
  Str.startswith (Str.lower p) (Str.lower s) = true.
Proof.
  revert s; induction p as [|a p IH]; intros s H; [reflexivity|].
  destruct s as [|b s]; simpl in *; [discriminate|].
  apply andb_true_iff in H as [Hab Hps].
  apply Ascii.eqb_eq in Hab; subst b.
  now rewrite Ascii.eqb_refl, IH.
Qed.

(** A word found in a text is found in the lowercased text, in lower case. *)
Lemma contains_lower (p s : string) :
  Str.contains p s = true ->
  Str.contains (Str.lower p) (Str.lower s) = true.
Proof.
  induction s as [|c s IH]; simpl; intros H.
  - rewrite orb_false_r in *. now apply (startswith_lower p "").
  - apply orb_true_iff in H as [H|H].
    + apply (startswith_lower p (String c s)) in H.
      simpl in H. now rewrite H.
    + rewrite (IH H). apply orb_true_r.
Qed.

Lemma startswith_contains (p s : string) :
  Str.startswith p s = true -> Str.contains p s = true.
Proof.
  intros H; destruct s; simpl; rewrite H; reflexivity.
Qed.

End StrFacts.

(** ** Facts about dictionaries and lists *)

Section DictFacts.
Context {V : Type}.
Implicit Types (d : Py.dict V) (k : string).

Lemma get_none_not_in d k : Py.get d k = None -> ~ In k (Py.keys d).
Proof.
  induction d as [|[k' v] d IH]; simpl; [tauto|].
  destruct (String.eqb k' k) eqn:E; [discriminate|].
  apply String.eqb_neq in E. intros H [H'|H']; [congruence|].
  now apply IH.
Qed.

Lemma get_in d k v :
  NoDup (Py.keys d) -> In (k, v) d -> Py.get d k = Some v.
Proof.
  induction d as [|[k' v'] d IH]; simpl; [tauto|].
  intros Hnd [H|H]; inversion Hnd as [|? ? Hni Hnd']; subst.
  - inversion H; subst. now rewrite String.eqb_refl.
  - destruct (String.eqb k' k) eqn:E; [|now apply IH].
    apply String.eqb_eq in E; subst k'.
    exfalso; apply Hni. now apply (in_map fst) in H.
Qed.

Lemma get_some_in d k v : Py.get d k = Some v -> In (k, v) d.
Proof.
  induction d as [|[k' v'] d IH]; simpl; [discriminate|].
  destruct (String.eqb k' k) eqn:E; intros H.
  - apply String.eqb_eq in E. inversion H; subst. now left.
  - right. now apply IH.
Qed.
End DictFacts.

Section IndexFacts.

Lemma index_app_first (l1 l2 : list string) (x : string) :
  ~ In x l1 -> Py.index (l1 ++ x :: l2) x = Some (List.length l1).
Proof.
  induction l1 as [|y l1 IH]; simpl; intros H.
  - now rewrite String.eqb_refl.
  - destruct (String.eqb y x) eqn:E.
    + apply String.eqb_eq in E. tauto.
    + rewrite IH; tauto.
Qed.

Lemma index_in (l : list string) (x : string) :
  In x l -> exists n, Py.index l x = Some n.
Proof.
  induction l as [|y l IH]; simpl; [tauto|]. intros H.
  destruct (String.eqb y x) eqn:E; [eauto|].
  destruct IH as (n & ->); [|eauto].
  destruct H as [->|H]; [|assumption].
  now rewrite String.eqb_refl in E.
Qed.

Lemma enumerate_length {A : Type} (l : list A) (start : nat) :
  List.length (Py.enumerate l start) = List.length l.
Proof.
  revert start; induction l as [|x l IH]; intros; simpl; [reflexivity|].
  now rewrite IH.
Qed.

Lemma enumerate_fst {A : Type} (l : list A) (start : nat) :
  map fst (Py.enumerate l start) = seq start (List.length l).
Proof.
  revert start; induction l as [|x l IH]; intros; simpl; [reflexivity|].
  now rewrite IH.
Qed.

Lemma enumerate_snd {A : Type} (l : list A) (start : nat) :
  map snd (Py.enumerate l start) = l.
Proof.
  revert start; induction l as [|x l IH]; intros; simpl; [reflexivity|].
  now rewrite IH.
Qed.

Lemma enumerate_nth {A : Type} (l : list A) (start i : nat) (x : A) :
  nth_error l i = Some x ->
  nth_error (Py.enumerate l start) i = Some ((start + i)%nat, x).
Proof.
  revert start i; induction l as [|y l IH]; intros start [|i] H;
    simpl in *; try discriminate.
  - inversion H; subst. now rewrite Nat.add_0_r.
  - rewrite (IH (S start) i H). f_equal. f_equal. lia.
Qed.

End IndexFacts.

(** ** The stable sort *)

Section StableSort.
Context {A : Type} (leb : A -> A -> bool).
Hypothesis leb_total : forall x y, leb x y = true \/ leb y x = true.
Hypothesis leb_trans :
  forall x y z, leb x y = true -> leb y z = true -> leb x z = true.

Lemma before_cons (l : list A) (a x y : A) :
  before l x y -> before (a :: l) x y.
Proof.
  intros (l1 & l2 & l3 & ->). now exists (a :: l1), l2, l3.
Qed.

Lemma before_head (l : list A) (x z : A) : In z l -> before (x :: l) x z.
Proof.
  intros H. apply in_split in H as (l2 & l3 & ->). now exists [], l2, l3.
Qed.

Lemma insert_sorted_in (x z : A) (s : list A) :
  In z (Py.insert_sorted leb x s) <-> z = x \/ In z s.
Proof.
  induction s as [|y s IH]; simpl.
  - intuition.
  - destruct (leb x y); simpl; [intuition|].
    rewrite IH. intuition.
Qed.

Lemma insert_sorted_perm (x : A) (s : list A) :
  Permutation (x :: s) (Py.insert_sorted leb x s).
Proof.
  induction s as [|y s IH]; simpl; [reflexivity|].
  destruct (leb x y); [reflexivity|].
  rewrite perm_swap. now apply perm_skip.
Qed.

Lemma stable_sort_perm (l : list A) : Permutation l (Py.stable_sort leb l).
Proof.
  induction l as [|x l IH]; simpl; [reflexivity|].
  rewrite <- insert_sorted_perm. now apply perm_skip.
Qed.

Lemma stable_sort_length (l : list A) :
  List.length (Py.stable_sort leb l) = List.length l.
Proof.
  symmetry. apply Permutation_length, stable_sort_perm.
Qed.

Lemma stable_order_cons (l : list A) (a x y : A) :
  stable_order leb l x y -> stable_order leb (a :: l) x y.
Proof.
  intros [H1 H2]. split; [assumption|].
  intros H. now apply before_cons, H2.
Qed.

Lemma insert_sorted_order (l : list A) (x : A) (s : list A) :
  (forall z, In z s -> In z l) ->
  StronglySorted (stable_order leb l) s ->
  StronglySorted (stable_order leb (x :: l)) (Py.insert_sorted leb x s).
Proof.
  intros Hin Hs.
  induction Hs as [|y s Hs IH Hy]; simpl.
  - repeat constructor.
  - assert (Hlift : StronglySorted (stable_order leb (x :: l)) (y :: s)).
    { constructor.
      - clear IH Hy Hin.
        induction Hs as [|u s Hs IHs Hu]; constructor; auto.
        eapply Forall_impl; [|exact Hu].
        intros; now apply stable_order_cons.
      - eapply Forall_impl; [|exact Hy].
        intros; now apply stable_order_cons. }
    destruct (leb x y) eqn:Hxy.
    + constructor; [assumption|].
      apply Forall_forall. intros z Hz. split.
      * destruct Hz as [<-|Hz]; [assumption|].
        rewrite Forall_forall in Hy.
        apply (leb_trans x y z Hxy), (Hy z Hz).
      * intros _. apply before_head, Hin, Hz.
    + constructor.
      * apply IH. intros z Hz. apply Hin. now right.
      * apply Forall_forall. intros z Hz.
        apply insert_sorted_in in Hz as [->|Hz].
        -- split; [|congruence].
           destruct (leb_total x y); congruence.
        -- rewrite Forall_forall in Hy.
           apply stable_order_cons, Hy, Hz.
Qed.

(** The output of the sort is ordered, equal keys in the input order. *)
Lemma stable_sort_order (l : list A) :
  StronglySorted (stable_order leb l) (Py.stable_sort leb l).
Proof.
  induction l as [|x l IH]; simpl; [constructor|].
  apply insert_sorted_order; [|assumption].
  intros z Hz. eapply Permutation_in; [|exact Hz].
  symmetry. apply stable_sort_perm.
Qed.

(** The first item of the output when an item is added in front. *)
Lemma insert_sorted_head (x h : A) (t : list A) :
  hd_error (Py.insert_sorted leb x (h :: t))
  = Some (if leb x h then x else h).
Proof.
  simpl. now destruct (leb x h).
Qed.
End StableSort.

Lemma StronglySorted_nth {A : Type} (R : A -> A -> Prop) (s : list A) :
  StronglySorted R s ->
  forall i j a b, (i < j)%nat ->
    nth_error s i = Some a -> nth_error s j = Some b -> R a b.
Proof.
  induction 1 as [|x s Hs IH Hx]; intros i j a b Hij Ha Hb.
  - destruct i; discriminate.
  - destruct j as [|j]; [lia|]. simpl in Hb.
    destruct i as [|i]; simpl in Ha.
    + inversion Ha; subst. rewrite Forall_forall in Hx.
      apply Hx. eapply nth_error_In; eassumption.
    + apply (IH i j); [lia|assumption..].
Qed.

(** With distinct keys, an earlier item has the smaller key index. *)
Lemma before_index {V : Type} (d : Py.dict V) (x y : string * V) :
  NoDup (Py.keys d) -> before d x y ->
  exists n m, Py.index (Py.keys d) (fst x) = Some n
           /\ Py.index (Py.keys d) (fst y) = Some m /\ (n < m)%nat.
Proof.
  intros Hnd (l1 & l2 & l3 & ->). unfold Py.keys in *.
  exists (List.length (map fst l1)),
         (List.length (map fst l1 ++ fst x :: map fst l2)).
  rewrite !map_app in *; simpl in *; rewrite map_app in *; simpl in *.
  split; [|split].
  - apply index_app_first.
    apply NoDup_remove_2 in Hnd. intros H; apply Hnd, in_or_app; now left.
  - replace (map fst l1 ++ fst x :: map fst l2 ++ fst y :: map fst l3)
      with ((map fst l1 ++ fst x :: map fst l2) ++ fst y :: map fst l3)
      by (now rewrite <- app_assoc).
    apply index_app_first.
    replace (map fst l1 ++ fst x :: map fst l2 ++ fst y :: map fst l3)
      with ((map fst l1 ++ fst x :: map fst l2) ++ fst y :: map fst l3) in Hnd
      by (now rewrite <- app_assoc).
    apply NoDup_remove_2 in Hnd. intros H; apply Hnd, in_or_app; now left.
  - rewrite length_app. simpl. lia.
Qed.

(** ** The first greatest item *)

Lemma Qltb_lt (x y : Q) : Py.Qltb x y = true <-> x < y.
Proof.
  unfold Py.Qltb. rewrite Qlt_alt.
  destruct (Qcompare x y); intuition discriminate.
Qed.

Lemma Qltb_ge (x y : Q) : Py.Qltb x y = false <-> y <= x.
Proof.
  split; intros H.
  - apply Qnot_lt_le. intros Hlt. apply Qltb_lt in Hlt. congruence.
  - destruct (Py.Qltb x y) eqn:E; [|reflexivity].
    apply Qltb_lt in E. lra.
Qed.

Section FirstMax.
Context {A : Type} (f : A -> Q).

Lemma first_max_in (l : list A) (m : A) : first_max f l m -> In m l.
Proof.
  intros (l1 & l2 & -> & _). apply in_or_app. right. now left.
Qed.

Lemma first_max_le (l : list A) (m : A) :
  first_max f l m -> Forall (fun y => f y <= f m) l.
Proof.
  intros (l1 & l2 & -> & H1 & H2).
  apply Forall_app. split.
  - eapply Forall_impl; [|exact H1]. simpl. intros; lra.
  - constructor; [lra|assumption].
Qed.

Lemma first_max_unique (l : list A) (m m' : A) :
  first_max f l m -> first_max f l m' -> m = m'.
Proof.
  intros (l1 & l2 & -> & H1 & H2) (l1' & l2' & E & H1' & H2').
  revert l1' E H1'.
  induction l1 as [|a l1 IH]; intros [|a' l1'] E H1'; simpl in E.
  - now injection E.
  - exfalso. injection E as Ea El.
    apply Forall_inv in H1'. rewrite Forall_forall in H2.
    assert (f m' <= f m).
    { apply H2. rewrite El. apply in_or_app; right; now left. }
    rewrite Ea in *. lra.
  - exfalso. injection E as Ea El.
    apply Forall_inv in H1. rewrite Forall_forall in H2'.
    assert (f m <= f m').
    { apply H2'. rewrite <- El. apply in_or_app; right; now left. }
    rewrite Ea in *. lra.
  - injection E as Ea El.
    apply Forall_inv_tail in H1. apply Forall_inv_tail in H1'.
    eapply IH; eauto.
Qed.

Lemma first_max_single (x : A) : first_max f [x] x.
Proof. exists [], []. repeat split; constructor. Qed.

(** A new item in front wins exactly when no later value exceeds its
    own. *)
Lemma first_max_cons (x h : A) (l : list A) :
  first_max f l h ->
  first_max f (x :: l) (if Qle_bool (f h) (f x) then x else h).
Proof.
  intros Hh. destruct (Qle_bool (f h) (f x)) eqn:E.
  - apply Qle_bool_iff in E.
    exists [], l. repeat split; [constructor|].
    eapply Forall_impl; [|apply (first_max_le _ _ Hh)].
    simpl. intros; lra.
  - destruct Hh as (l1 & l2 & -> & H1 & H2).
    exists (x :: l1), l2. repeat split; [|assumption].
    constructor; [|assumption].
    apply Qnot_le_lt. intros Hle. apply Qle_bool_iff in Hle. congruence.
Qed.

(** The loop of [max] keeps the first greatest item of what it has seen. *)
Lemma max_loop_first_max (key : A -> option Q) (rest pre : list A) (m : A) :
  (forall k, In k (pre ++ rest) -> key k = Some (f k)) ->
  first_max f pre m ->
  exists r, Py.max_loop key rest m (key m) = Some r
            /\ first_max f (pre ++ rest) r.
Proof.
  revert pre m. induction rest as [|x rest IH]; intros pre m Hkey Hm.
  - exists m. rewrite app_nil_r. now split.
  - simpl.
    assert (Hx : key x = Some (f x)).
    { apply Hkey, in_or_app. right. now left. }
    assert (Hkm : key m = Some (f m)).
    { apply Hkey, in_or_app. left. eapply first_max_in; eassumption. }
    rewrite Hx, Hkm. simpl.
    replace (pre ++ x :: rest) with ((pre ++ [x]) ++ rest) in *
      by (rewrite <- app_assoc; reflexivity).
    destruct (Py.Qltb (f m) (f x)) eqn:E.
    + rewrite <- Hx. apply IH; [assumption|].
      apply Qltb_lt in E.
      exists pre, []. repeat split; [|constructor].
      eapply Forall_impl; [|apply (first_max_le _ _ Hm)].
      simpl. intros; lra.
    + rewrite <- Hkm. apply IH; [assumption|].
      apply Qltb_ge in E.
      destruct Hm as (l1 & l2 & -> & H1 & H2).
      exists l1, (l2 ++ [x]). repeat split.
      * now rewrite <- app_assoc.
      * assumption.
      * apply Forall_app. split; [assumption|]. now constructor.
Qed.

(** [max] returns the first greatest item of a list that is not empty. *)
Lemma max_first_max (key : A -> option Q) (l : list A) :
  l <> [] ->
  (forall k, In k l -> key k = Some (f k)) ->
  exists r, Py.max key l = Some r /\ first_max f l r.
Proof.
  destruct l as [|x rest]; [congruence|]. intros _ Hkey.
  apply (max_loop_first_max key rest [x] x Hkey), first_max_single.
Qed.

(** The first item of a list sorted by greatest value first is the first
    greatest item. *)
Lemma sorted_reverse_head (l : list A) :
  l <> [] ->
  exists h, hd_error (Py.sorted l f true) = Some h /\ first_max f l h.
Proof.
  unfold Py.sorted.
  induction l as [|x l IH]; [congruence|]. intros _.
  destruct l as [|y l].
  - exists x. split; [reflexivity|apply first_max_single].
  - destruct IH as (h & Hh & Hm); [discriminate|].
    change (Py.stable_sort ?c (x :: ?t))
      with (Py.insert_sorted c x (Py.stable_sort c t)).
    destruct (Py.stable_sort _ (y :: l)) as [|h' t]; [discriminate|].
    simpl in Hh. inversion Hh; subst h'.
    rewrite insert_sorted_head.
    eexists. split; [reflexivity|].
    now apply first_max_cons.
Qed.
End FirstMax.

(** ** Ranking a score dictionary *)

Lemma by_score_desc_total (x y : string * Q) :
  by_score_desc x y = true \/ by_score_desc y x = true.
Proof.
  unfold by_score_desc. rewrite !Qle_bool_iff.
  destruct (Qlt_le_dec (snd x) (snd y)); [right; lra|now left].
Qed.

Lemma by_score_desc_trans (x y z : string * Q) :
  by_score_desc x y = true -> by_score_desc y z = true ->
  by_score_desc x z = true.
Proof.
  unfold by_score_desc. rewrite !Qle_bool_iff. lra.
Qed.

Section Ranking.
Variable d : Py.dict Q.
Hypothesis keys_distinct : NoDup (Py.keys d).

Lemma sorted_depts_perm : Permutation d (sorted_depts d).
Proof. apply stable_sort_perm. Qed.

Lemma sorted_depts_length :
  List.length (sorted_depts d) = List.length d.
Proof. apply stable_sort_length. Qed.

(** Of two entries of the sorted list, the earlier has the greater or
    equal score, and with equal scores the smaller key index. *)
Lemma sorted_depts_order (i j : nat) (k1 k2 : string) (v1 v2 : Q) :
  (i < j)%nat ->
  nth_error (sorted_depts d) i = Some (k1, v1) ->
  nth_error (sorted_depts d) j = Some (k2, v2) ->
  v2 <= v1
  /\ (v1 == v2 ->
      exists a b, Py.index (Py.keys d) k1 = Some a
                  /\ Py.index (Py.keys d) k2 = Some b /\ (a < b)%nat).
Proof.
  intros Hij H1 H2.
  pose proof (stable_sort_order by_score_desc by_score_desc_total
                by_score_desc_trans d) as Hs.
  destruct (StronglySorted_nth _ _ Hs i j _ _ Hij H1 H2) as [Hle Hst].
  unfold by_score_desc in *; simpl in *.
  rewrite Qle_bool_iff in Hle. split; [assumption|].
  intros Heq.
  apply (before_index d (k1, v1) (k2, v2) keys_distinct).
  apply Hst, Qle_bool_iff. rewrite Heq. apply Qle_refl.
Qed.

Lemma sorted_depts_get (i : nat) (k : string) (v : Q) :
  nth_error (sorted_depts d) i = Some (k, v) -> Py.get d k = Some v.
Proof.
  intros H. apply get_in; [assumption|].
  eapply Permutation_in; [symmetry; apply sorted_depts_perm|].
  eapply nth_error_In; eassumption.
Qed.

(** The key that [max] selects is the key of the first sorted entry, and
    it is the first key of greatest score. *)
Lemma max_is_sorted_head :
  d <> [] ->
  exists k v,
    Py.max (Py.get d) (Py.keys d) = Some k
    /\ hd_error (sorted_depts d) = Some (k, v)
    /\ Py.get d k = Some v
    /\ first_max snd d (k, v).
Proof.
  intros Hne.
  destruct (sorted_reverse_head snd d Hne) as ([k v] & Hhd & Hfm).
  exists k, v.
  assert (Hget : forall p, In p d -> Py.get d (fst p) = Some (snd p)).
  { intros [k' v'] Hp. now apply get_in. }
  set (score := fun k' => Py.get_default d k' 0).
  assert (Hscore : forall p, In p d -> score (fst p) = snd p).
  { intros p Hp. unfold score, Py.get_default. now rewrite (Hget p Hp). }
  assert (Hkeys : first_max score (Py.keys d) k).
  { destruct Hfm as (l1 & l2 & E & H1 & H2).
    exists (map fst l1), (map fst l2).
    assert (Hk : score k = v).
    { apply (Hscore (k, v)). rewrite E. apply in_or_app; right; now left. }
    split; [unfold Py.keys; now rewrite E, map_app|].
    rewrite Hk, !Forall_map. split.
    - apply Forall_forall. intros p Hp.
      rewrite Hscore by (rewrite E; apply in_or_app; now left).
      rewrite Forall_forall in H1. apply (H1 p Hp).
    - apply Forall_forall. intros p Hp.
      rewrite Hscore by (rewrite E; apply in_or_app; right; now right).
      rewrite Forall_forall in H2. apply (H2 p Hp). }
  destruct (max_first_max score (Py.get d) (Py.keys d)) as (r & Hr & Hrm).
  - destruct d; [congruence|discriminate].
  - intros k' Hk'. unfold Py.keys in Hk'.
    apply in_map_iff in Hk' as (p & <- & Hp).
    now rewrite (Hget p Hp), (Hscore p Hp).
  - pose proof (first_max_unique score _ _ _ Hkeys Hrm) as Ek. subst r.
    repeat split; try assumption.
    apply (Hget (k, v)). eapply first_max_in; eassumption.
Qed.

(** The rows of the table are the sorted entries, numbered from 1. *)
Lemma table_data_nth (sums : Py.dict (Py.dict string)) (i : nat) (r : Row) :
  nth_error (table_data d sums) i = Some r ->
  exists k v,
    nth_error (sorted_depts d) i = Some (k, v)
    /\ r = {| sr_no := S i;
              department_name := k;
              relevance_score := format_percent v;
              summary := dept_summary sums k;
              download_link := download_url k |}.
Proof.
  unfold table_data. rewrite nth_error_map.
  destruct (nth_error (sorted_depts d) i) as [[k v]|] eqn:E.
  - rewrite (enumerate_nth _ 1 i _ E). simpl.
    intros H; inversion H; subst. now exists k, v.
  - apply nth_error_None in E.
    assert (Hn : nth_error (Py.enumerate (sorted_depts d) 1) i = None).
    { apply nth_error_None. now rewrite enumerate_length. }
    rewrite Hn. discriminate.
Qed.

Lemma table_data_length (sums : Py.dict (Py.dict string)) :
  List.length (table_data d sums) = List.length d.
Proof.
  unfold table_data.
  now rewrite length_map, enumerate_length, sorted_depts_length.
Qed.

Lemma table_data_sr_no (sums : Py.dict (Py.dict string)) :
  map sr_no (table_data d sums) = seq 1 (List.length d).
Proof.
  unfold table_data. rewrite map_map.
  rewrite <- sorted_depts_length, <- enumerate_fst.
  apply map_ext. now intros [i [k v]].
Qed.

Lemma table_data_departments (sums : Py.dict (Py.dict string)) :
  map department_name (table_data d sums) = map fst (sorted_depts d).
Proof.
  unfold table_data. rewrite map_map.
  rewrite <- (enumerate_snd (sorted_depts d) 1) at 2.
  rewrite map_map. apply map_ext. now intros [i [k v]].
Qed.
End Ranking.

(** ** The catalog and the score dictionary *)

Lemma distinct_NoDup (l : list string) : distinct l = true -> NoDup l.
Proof.
  induction l as [|x l IH]; simpl; intros H; constructor;
    apply andb_true_iff in H as [Hx Hl]; [|now apply IH].
  intros Hin. apply negb_true_iff in Hx.
  assert (existsb (String.eqb x) l = true); [|congruence].
  apply existsb_exists. exists x. split; [assumption|apply String.eqb_refl].
Qed.

Lemma departments_distinct : NoDup (departments init).
Proof. apply distinct_NoDup. reflexivity. Qed.

(** The score dictionary lists the departments in catalog order, whatever
    the text. *)
Lemma dept_scores_keys (text : string) :
  Py.keys (dept_scores text) = departments init.
Proof. reflexivity. Qed.

Lemma dept_scores_distinct (text : string) : NoDup (Py.keys (dept_scores text)).
Proof. rewrite dept_scores_keys. apply departments_distinct. Qed.

Lemma dept_scores_bounds (text : string) :
  Forall (fun p => 0 <= snd p /\ snd p <= 1) (dept_scores text).
Proof.
  unfold dept_scores.
  repeat (constructor;
          [simpl; match goal with
                  | |- context [if ?c then _ else _] => destruct c
                  end; split; lra|]).
  constructor.
Qed.

(** Every method ignores the processor it is called on. *)
Lemma classify_department_self (p : MockDocumentProcessor) (text : string) :
  classify_department p text = classify_department init text.
Proof. reflexivity. Qed.

(** [classify_department] returns, and what it returns is the head of the
    sorted score list. *)
Lemma classify_department_head (text : string) :
  exists k v,
    classify_department init text = Some (k, v, dept_scores text)
    /\ hd_error (sorted_depts (dept_scores text)) = Some (k, v)
    /\ first_max snd (dept_scores text) (k, v).
Proof.
  destruct (max_is_sorted_head (dept_scores text) (dept_scores_distinct text))
    as (k & v & Hmax & Hhd & Hget & Hfm); [discriminate|].
  exists k, v. unfold classify_department.
  rewrite Hmax, Hget. now repeat split.
Qed.


(** ** The properties of the specification *)

(** C1.  For every text, the ranked table is sorted by score, greatest
    first: of two rows, the earlier one has the greater or equal score, and
    when the two scores are equal the department of the earlier row has the
    strictly smaller index in the catalog [departments].  The score of a row
    is the entry of its department in the score dictionary, which the row
    shows as a percentage. *)
Theorem C1_ranked_table_sorted (text : string) (i j : nat) (ri rj : Row) :
  (i < j)%nat ->
  nth_error (ranked_table text) i = Some ri ->
  nth_error (ranked_table text) j = Some rj ->
  exists si sj a b,
    Py.get (dept_scores text) (department_name ri) = Some si
    /\ Py.get (dept_scores text) (department_name rj) = Some sj
    /\ relevance_score ri = format_percent si
    /\ relevance_score rj = format_percent sj
    /\ Py.index (departments init) (department_name ri) = Some a
    /\ Py.index (departments init) (department_name rj) = Some b
    /\ sj <= si
    /\ (si == sj -> (a < b)%nat).
Proof.
  intros Hij Hi Hj. unfold ranked_table in *.
  apply table_data_nth in Hi as (ki & vi & Hi & ->).
  apply table_data_nth in Hj as (kj & vj & Hj & ->).
  cbn [department_name relevance_score].
  pose proof (dept_scores_distinct text) as Hnd.
  destruct (sorted_depts_order _ Hnd i j ki kj vi vj Hij Hi Hj) as [Hle Htie].
  assert (Hin : forall n k v,
             nth_error (sorted_depts (dept_scores text)) n = Some (k, v) ->
             exists c, Py.index (departments init) k = Some c).
  { intros n k v Hn. apply index_in.
    apply (sorted_depts_get _ Hnd), get_some_in in Hn.
    rewrite <- (dept_scores_keys text).
    apply (in_map fst) in Hn. exact Hn. }
  destruct (Hin _ _ _ Hi) as (a & Ha). destruct (Hin _ _ _ Hj) as (b & Hb).
  exists vi, vj, a, b.
  split; [eapply sorted_depts_get; eassumption|].
  split; [eapply sorted_depts_get; eassumption|].
  do 2 (split; [reflexivity|]).
  do 3 (split; [assumption|]).
  intros Heq. destruct (Htie Heq) as (a' & b' & Ha' & Hb' & Hlt).
  rewrite dept_scores_keys in Ha', Hb'. congruence.
Qed.

Lemma C1_ranked_table_sorted_witness :
  exists ri rj si sj a b,
    nth_error (ranked_table "Finance memo on an incident") 0 = Some ri
    /\ nth_error (ranked_table "Finance memo on an incident") 1 = Some rj
    /\ department_name ri = "Finance"
    /\ department_name rj = "Incident Reports"
    /\ Py.get (dept_scores "Finance memo on an incident") (department_name ri)
       = Some si
    /\ Py.get (dept_scores "Finance memo on an incident") (department_name rj)
       = Some sj
    /\ Py.index (departments init) (department_name ri) = Some a
    /\ Py.index (departments init) (department_name rj) = Some b
    /\ sj <= si /\ (si == sj -> (a < b)%nat).
Proof.
  destruct (C1_ranked_table_sorted "Finance memo on an incident" 0 1
              {| sr_no := 1; department_name := "Finance";
                 relevance_score := "75.00%";
                 summary := "Financial analysis and budget planning document";
                 download_link := "#Finance" |}
              {| sr_no := 2; department_name := "Incident Reports";
                 relevance_score := "75.00%";
                 summary := "Incident documentation and investigation reports";
                 download_link := "#Incident_Reports" |})
    as (si & sj & a & b & H1 & H2 & _ & _ & H3 & H4 & H5 & H6).
  - lia.
  - vm_compute. reflexivity.
  - vm_compute. reflexivity.
  - do 2 eexists. exists si, sj, a, b.
    split; [vm_compute; reflexivity|].
    split; [vm_compute; reflexivity|].
    do 2 (split; [reflexivity|]).
    do 5 (split; [assumption|]). assumption.
Defined.

(** C2, as the code has it.  For the empty text no keyword is found, and
    every department gets its own baseline score; the baselines differ.
    The greatest one, 0.40, belongs to 'Safety Circulars' at index 4 of the
    catalog, which is the primary department.  The priority level is Low. *)
Theorem C2_empty_text_baselines :
  dept_scores ""
  = [ ("Engineering Drawings", 0.30); ("Legal Opinions", 0.25);
      ("Finance", 0.35); ("HR Policies", 0.28); ("Safety Circulars", 0.40);
      ("Board Meeting Minutes", 0.32); ("Maintenance Job Cards", 0.22);
      ("Incident Reports", 0.26); ("Vendor Invoices", 0.24);
      ("Purchase Order Correspondence", 0.20);
      ("Regulatory Directives", 0.18) ]%Q
  /\ classify_department init ""
     = Some ("Safety Circulars", 0.40%Q, dept_scores "")
  /\ Py.index (departments init) "Safety Circulars" = Some 4%nat
  /\ classify_priority init "" = ("Low", 0.6%Q).
Proof. repeat split. Qed.

(** C2 as stated fails at the empty text: the scores are not all equal to one
    floor value, and the primary department is not the first of the
    catalog. *)
Lemma C2_empty_text_not_uniform :
  ~ (exists floor, Forall (fun p => snd p == floor) (dept_scores ""))
  /\ ~ (exists s, classify_department init ""
                  = Some (nth 0 (departments init) "", s, dept_scores "")).
Proof.
  split.
  - intros (fl & H). unfold dept_scores in H. simpl in H.
    apply Forall_inv_tail in H as H'. apply Forall_inv in H.
    apply Forall_inv in H'. simpl in *.
    rewrite <- H' in H. vm_compute in H. discriminate.
  - intros (s & H). vm_compute in H. discriminate.
Qed.

(** C3, as the code has it.  'urgent' is looked for first: every text that
    mentions 'urgent', also one that mentions 'important' as well, gets the
    level High with confidence 0.9. *)
Theorem C3_urgent_takes_precedence (text : string) :
  Str.contains "urgent" (Str.lower text) = true ->
  Str.contains "important" (Str.lower text) = true ->
  classify_priority init text = ("High", 0.9%Q).
Proof.
  intros Hu _. unfold classify_priority. now rewrite Hu.
Qed.

Lemma C3_urgent_takes_precedence_witness :
  classify_priority init "Urgent and important notice" = ("High", 0.9%Q).
Proof.
  apply (C3_urgent_takes_precedence "Urgent and important notice");
    reflexivity.
Defined.

(** C3 as stated fails: a text with both words does not get the level Low. *)
Lemma C3_both_words_not_low :
  Str.contains "urgent" "an urgent and important notice" = true
  /\ Str.contains "important" "an urgent and important notice" = true
  /\ fst (classify_priority init "an urgent and important notice") <> "Low".
Proof.
  repeat split. discriminate.
Qed.

(** C4.  For every text the ranked table is well formed: it has as many
    rows as the catalog has departments, the departments of its rows are the
    catalog departments, each once, the numbers of its rows are 1..N in this
    order, and every score lies between 0 and 1. *)
Theorem C4_ranked_table_well_formed (text : string) :
  List.length (ranked_table text) = List.length (departments init)
  /\ Permutation (map department_name (ranked_table text)) (departments init)
  /\ NoDup (map department_name (ranked_table text))
  /\ map sr_no (ranked_table text) = seq 1 (List.length (departments init))
  /\ Forall (fun p => 0 <= snd p /\ snd p <= 1) (dept_scores text)
  /\ Forall (fun p => 0 <= snd p /\ snd p <= 1)
            (sorted_depts (dept_scores text)).
Proof.
  unfold ranked_table.
  assert (Hp : Permutation
                 (map department_name
                      (table_data (dept_scores text)
                                  (generate_summary init text)))
                 (departments init)).
  { rewrite table_data_departments, <- (dept_scores_keys text).
    symmetry. apply Permutation_map, sorted_depts_perm. }
  split; [apply table_data_length|].
  split; [exact Hp|].
  split.
  { eapply Permutation_NoDup; [symmetry; exact Hp|].
    apply departments_distinct. }
  split; [apply table_data_sr_no|].
  split; [apply dept_scores_bounds|].
  eapply Permutation_Forall; [apply sorted_depts_perm|].
  apply dept_scores_bounds.
Qed.

(** A text in which the word 'urgent' occurs as written, in lower case, is a
    text that mentions it: the level is High. *)
Lemma classify_priority_urgent_word (text : string) :
  Str.contains "urgent" text = true ->
  classify_priority init text = ("High", 0.9%Q).
Proof.
  intros H. apply contains_lower in H.
  change (Str.lower "urgent") with "urgent" in H.
  unfold classify_priority. now rewrite H.
Qed.

(** The primary department heads the table. *)
Lemma primary_heads_table (text : string) :
  exists k v r1 rest,
    classify_department init text = Some (k, v, dept_scores text)
    /\ ranked_table text = r1 :: rest
    /\ department_name r1 = k.
Proof.
  destruct (classify_department_head text) as (k & v & Hc & Hhd & _).
  assert (Hrow : nth_error (sorted_depts (dept_scores text)) 0 = Some (k, v)).
  { destruct (sorted_depts (dept_scores text)); [discriminate|exact Hhd]. }
  destruct (ranked_table text) as [|r1 rest] eqn:Et.
  { exfalso. apply (f_equal (@List.length Row)) in Et.
    unfold ranked_table in Et. rewrite table_data_length in Et.
    discriminate. }
  assert (Hr1 : nth_error (ranked_table text) 0 = Some r1)
    by now rewrite Et.
  unfold ranked_table in Hr1.
  apply table_data_nth in Hr1 as (k' & v' & Hrow' & ->).
  rewrite Hrow in Hrow'. injection Hrow' as <- <-.
  do 3 eexists. exists rest.
  split; [exact Hc|]. split; reflexivity.
Qed.

(** C5.  For every text, [classify_department] returns a primary
    department, and it is the department of the first row of the table, the
    row numbered 1.  It is the first department of greatest score in catalog
    order: the departments before it in the catalog have strictly smaller
    scores and those after it have smaller or equal scores, so among
    departments tied at the top both computations take the one of smallest
    catalog index. *)
Theorem C5_primary_is_rank_one (text : string) :
  exists primary score r1 rest earlier later,
    classify_department init text = Some (primary, score, dept_scores text)
    /\ ranked_table text = r1 :: rest
    /\ sr_no r1 = 1%nat
    /\ department_name r1 = primary
    /\ relevance_score r1 = format_percent score
    /\ dept_scores text = earlier ++ (primary, score) :: later
    /\ Py.index (departments init) primary = Some (List.length earlier)
    /\ Forall (fun p => snd p < score) earlier
    /\ Forall (fun p => snd p <= score) later.
Proof.
  destruct (classify_department_head text) as (k & v & Hc & Hhd & Hfm).
  assert (Hrow : nth_error (sorted_depts (dept_scores text)) 0 = Some (k, v)).
  { destruct (sorted_depts (dept_scores text)); [discriminate|exact Hhd]. }
  destruct (ranked_table text) as [|r1 rest] eqn:Et.
  { exfalso. apply (f_equal (@List.length Row)) in Et.
    unfold ranked_table in Et. rewrite table_data_length in Et.
    discriminate. }
  assert (Hr1 : nth_error (ranked_table text) 0 = Some r1)
    by now rewrite Et.
  unfold ranked_table in Hr1.
  apply table_data_nth in Hr1 as (k' & v' & Hrow' & ->).
  rewrite Hrow in Hrow'. injection Hrow' as <- <-.
  destruct Hfm as (l1 & l2 & E & H1 & H2).
  exists k, v. do 2 eexists. exists l1, l2.
  split; [exact Hc|]. split; [reflexivity|].
  do 3 (split; [reflexivity|]).
  split; [exact E|].
  split; [|split; assumption].
  pose proof (dept_scores_distinct text) as Hnd.
  rewrite <- (dept_scores_keys text). unfold Py.keys in *.
  rewrite E, map_app in *. simpl in *.
  rewrite <- (length_map fst l1). apply index_app_first.
  now apply NoDup_remove_2 in Hnd; intros H; apply Hnd, in_or_app; left.
Qed.

(** A run returns the result made of what the methods return, whatever the
    cache holds, and leaves the processor in the cache. *)
Lemma process_returns (text : string) (k : string) (v : Q)
      (cache : option MockDocumentProcessor) :
  classify_department init text = Some (k, v, dept_scores text) ->
  process text cache
  = (Some {| primary_department := k;
             primary_confidence := v;
             all_dept_scores := dept_scores text;
             priority := classify_priority init text;
             summaries := generate_summary init text;
             table := table_data (dept_scores text)
                                 (generate_summary init text) |},
     Some (match cache with Some p => p | None => init end)).
Proof.
  intros Hc. unfold process, get_processor.
  destruct cache as [p|];
    [change (classify_department p text)
       with (classify_department init text)|];
    rewrite Hc; reflexivity.
Qed.

(** C6.  Processing a text is deterministic.  The only state that survives
    a run is the cached processor; whatever the cache holds, a run on the
    text succeeds, and a second run on the same text, started from the cache
    the first run left, returns the same result: the same score dictionary,
    the same table with the same rows in the same order, and the same primary
    department. *)
Theorem C6_process_deterministic (text : string)
        (cache : option MockDocumentProcessor) :
  exists result cache1 cache2,
    process text cache = (Some result, cache1)
    /\ process text cache1 = (Some result, cache2)
    /\ all_dept_scores result = dept_scores text
    /\ table result = ranked_table text
    /\ hd_error (map department_name (table result))
       = Some (primary_department result).
Proof.
  destruct (primary_heads_table text) as (k & v & r1 & rest & Hc & Et & Hk).
  do 3 eexists.
  split; [apply (process_returns text k v cache Hc)|].
  split; [apply (process_returns text k v _ Hc)|].
  cbn [all_dept_scores table primary_department].
  do 2 (split; [reflexivity|]).
  fold (ranked_table text). rewrite Et. simpl. now rewrite Hk.
Qed.

(** C7.  A text that mentions 'urgent' (in any letter case, as the text is
    lowercased before the search) gets the level High with a confidence of at
    least 0.8.  Of three texts, the first mentioning 'urgent', the second
    'important' but not 'urgent', the third neither, the levels are High,
    Medium and Low, and they stand in this order in the list [priorities],
    which goes from the highest level down. *)
Theorem C7_priority_levels (t1 t2 t3 : string) :
  Str.contains "urgent" (Str.lower t1) = true ->
  Str.contains "important" (Str.lower t2) = true ->
  Str.contains "urgent" (Str.lower t2) = false ->
  Str.contains "urgent" (Str.lower t3) = false ->
  Str.contains "important" (Str.lower t3) = false ->
  fst (classify_priority init t1) = "High"
  /\ 0.8 <= snd (classify_priority init t1)
  /\ fst (classify_priority init t2) = "Medium"
  /\ fst (classify_priority init t3) = "Low"
  /\ exists h m l,
       priority_index init (fst (classify_priority init t1)) = Some h
       /\ priority_index init (fst (classify_priority init t2)) = Some m
       /\ priority_index init (fst (classify_priority init t3)) = Some l
       /\ (h < m)%nat /\ (m < l)%nat.
Proof.
  intros H1 H2 H2' H3 H3'. unfold classify_priority.
  rewrite H1, H2, H2', H3, H3'. cbn [fst snd].
  split; [reflexivity|]. split; [lra|].
  do 2 (split; [reflexivity|]).
  exists 0%nat, 1%nat, 2%nat.
  do 3 (split; [reflexivity|]). split; lia.
Qed.

Lemma C7_priority_levels_witness :
  fst (classify_priority init "URGENT: pump failure") = "High"
  /\ 0.8 <= snd (classify_priority init "URGENT: pump failure")
  /\ fst (classify_priority init "An important notice") = "Medium"
  /\ fst (classify_priority init "Minutes of the meeting") = "Low"
  /\ exists h m l,
       priority_index init
         (fst (classify_priority init "URGENT: pump failure")) = Some h
       /\ priority_index init
            (fst (classify_priority init "An important notice")) = Some m
       /\ priority_index init
            (fst (classify_priority init "Minutes of the meeting")) = Some l
       /\ (h < m)%nat /\ (m < l)%nat.
Proof.
  apply (C7_priority_levels "URGENT: pump failure" "An important notice"
                            "Minutes of the meeting"); reflexivity.
Defined.

(** C8.  Table assembly never fails on a missing summary.  For every score
    dictionary and every summary mapping, a department of the score
    dictionary whose summary entry is absent, or whose entry has no
    'detailed' field, still has its row, with the placeholder text as
    summary, and the table has one row per scored department, numbered from
    1. *)
Theorem C8_missing_summary_fallback
        (scores : Py.dict Q) (sums : Py.dict (Py.dict string))
        (dept : string) :
  In dept (Py.keys scores) ->
  (Py.get sums dept = None
   \/ exists entry, Py.get sums dept = Some entry
                    /\ Py.get entry "detailed" = None) ->
  (exists r, In r (table_data scores sums)
             /\ department_name r = dept
             /\ summary r = "No summary available")
  /\ List.length (table_data scores sums) = List.length scores
  /\ map sr_no (table_data scores sums) = seq 1 (List.length scores).
Proof.
  intros Hin Hmiss.
  split; [|split; [apply table_data_length|apply table_data_sr_no]].
  assert (Hd : In dept (map department_name (table_data scores sums))).
  { rewrite table_data_departments.
    eapply Permutation_in; [|exact Hin].
    apply Permutation_map, sorted_depts_perm. }
  apply in_map_iff in Hd as (r & Hr & Hrin).
  exists r. split; [assumption|]. split; [assumption|].
  apply In_nth_error in Hrin as (i & Hi).
  apply table_data_nth in Hi as (k & v & _ & ->).
  cbn [department_name summary] in *. subst k.
  unfold dept_summary, Py.get_default.
  destruct Hmiss as [->|(entry & -> & ->)]; reflexivity.
Qed.

Lemma C8_missing_summary_fallback_witness :
  (exists r,
      In r (table_data (dept_scores "")
                       [("Legal Opinions", [("brief", "Legal analysis")])])
      /\ department_name r = "Legal Opinions"
      /\ summary r = "No summary available")
  /\ List.length
       (table_data (dept_scores "")
                   [("Legal Opinions", [("brief", "Legal analysis")])])
     = List.length (dept_scores "")
  /\ map sr_no
       (table_data (dept_scores "")
                   [("Legal Opinions", [("brief", "Legal analysis")])])
     = seq 1 (List.length (dept_scores "")).
Proof.
  apply (C8_missing_summary_fallback
           (dept_scores "")
           [("Legal Opinions", [("brief", "Legal analysis")])]
           "Legal Opinions").
  - simpl. tauto.
  - right. exists [("brief", "Legal analysis")]. split; reflexivity.
Defined.

(** C9.  The download link of a row is computed from the department name of
    the row and from nothing else; over the catalog the computation is
    injective, as the links of the eleven departments are pairwise distinct;
    and each of these links is [#] followed by characters that need no
    escaping in a URL. *)
Theorem C9_download_link_injective :
  (forall scores sums,
      map download_link (table_data scores sums)
      = map download_url (map department_name (table_data scores sums)))
  /\ NoDup (map download_url (departments init))
  /\ forallb url_safe (map download_url (departments init)) = true.
Proof.
  split; [|split].
  - intros scores sums. unfold table_data. rewrite !map_map.
    apply map_ext. now intros [i [k v]].
  - apply distinct_NoDup. vm_compute. reflexivity.
  - vm_compute. reflexivity.
Qed.

(** C10.  [generate_summary] ignores the text, and the processor too: any
    two calls return the same mapping, whose keys are the eleven departments
    of the catalog in catalog order, each with a 'detailed' field. *)
Theorem C10_summary_ignores_text
        (self1 self2 : MockDocumentProcessor) (t1 t2 : string) :
  generate_summary self1 t1 = generate_summary self2 t2
  /\ Py.keys (generate_summary self1 t1) = departments init
  /\ List.length (generate_summary self1 t1) = 11%nat
  /\ forallb (fun entry =>
                match Py.get (snd entry) "detailed" with
                | Some _ => true
                | None => false
                end)
             (generate_summary self1 t1) = true.
Proof.
  repeat split.
Qed.

(** ** Further properties of the code *)

(** *** The download link *)

Section LinkFacts.

Lemma replace_space_cons (x : ascii) (s : string) :
  Str.replace " " "_" (String x s)
  = String (if Ascii.eqb x " " then "_" else x) (Str.replace " " "_" s)%char.
Proof.
  unfold Str.replace. cbn [Str.replace_from Str.startswith].
  rewrite Ascii.eqb_sym, andb_true_r.
  destruct (Ascii.eqb x " "); reflexivity.
Qed.

Lemma replace_underscore_cons (x : ascii) (s : string) :
  Str.replace "_" " " (String x s)
  = String (if Ascii.eqb x "_" then " " else x) (Str.replace "_" " " s)%char.
Proof.
  unfold Str.replace. cbn [Str.replace_from Str.startswith].
  rewrite Ascii.eqb_sym, andb_true_r.
  destruct (Ascii.eqb x "_"); reflexivity.
Qed.

Lemma contains_char_cons (c x : ascii) (s : string) :
  Str.contains (String c "") (String x s)
  = Ascii.eqb c x || Str.contains (String c "") s.
Proof.
  cbn [Str.contains Str.startswith]. now rewrite andb_true_r.
Qed.

Lemma replace_space_length (s : string) :
  String.length (Str.replace " " "_" s) = String.length s.
Proof.
  induction s as [|x s IH]; [reflexivity|].
  rewrite replace_space_cons. cbn [String.length]. now rewrite IH.
Qed.

Lemma replace_space_no_space (s : string) :
  Str.contains " " (Str.replace " " "_" s) = false.
Proof.
  induction s as [|x s IH]; [reflexivity|].
  rewrite replace_space_cons, contains_char_cons, IH, orb_false_r.
  destruct (Ascii.eqb x " ") eqn:E; [reflexivity|].
  now rewrite Ascii.eqb_sym.
Qed.

(** Turning the underscores of a link back into spaces gives the name back,
    when the name had no underscore of its own. *)
Lemma replace_space_inverse (s : string) :
  Str.contains "_" s = false ->
  Str.replace "_" " " (Str.replace " " "_" s) = s.
Proof.
  induction s as [|x s IH]; [reflexivity|].
  rewrite contains_char_cons. intros H.
  apply orb_false_iff in H as [Hx Hs].
  rewrite replace_space_cons, replace_underscore_cons, (IH Hs).
  destruct (Ascii.eqb x " ") eqn:E.
  - apply Ascii.eqb_eq in E. now subst x.
  - rewrite Ascii.eqb_sym in Hx. now rewrite Hx.
Qed.

End LinkFacts.

(** X1.  Whatever the department name, its download link is [#] followed by
    as many characters as the name has, none of them a space. *)
Theorem download_url_shape (dept_name : string) :
  exists rest,
    download_url dept_name = String "#" rest
    /\ String.length rest = String.length dept_name
    /\ Str.contains " " rest = false.
Proof.
  exists (Str.replace " " "_" dept_name).
  split; [reflexivity|].
  split; [apply replace_space_length|apply replace_space_no_space].
Qed.

(** X2.  Two different department names without underscores get different
    download links. *)
Theorem download_url_injective (name1 name2 : string) :
  Str.contains "_" name1 = false ->
  Str.contains "_" name2 = false ->
  name1 <> name2 ->
  download_url name1 <> download_url name2.
Proof.
  intros H1 H2 Hne E. apply Hne.
  change (String "#" (Str.replace " " "_" name1)
          = String "#" (Str.replace " " "_" name2)) in E.
  assert (E' : Str.replace " " "_" name1 = Str.replace " " "_" name2)
    by (injection E as E0; exact E0).
  rewrite <- (replace_space_inverse name1 H1),
          <- (replace_space_inverse name2 H2).
  now rewrite E'.
Qed.

Lemma download_url_injective_witness :
  download_url "Vendor Invoices" <> download_url "Vendor Invoice Notes".
Proof.
  apply (download_url_injective "Vendor Invoices" "Vendor Invoice Notes");
    [reflexivity|reflexivity|intros H; discriminate H].
Defined.

(** The condition is needed: a space and an underscore give the same link. *)
Example download_url_collision :
  download_url "Job Cards" = download_url "Job_Cards".
Proof. reflexivity. Qed.

(** *** Letter case *)

Section CaseFacts.

Lemma lower_ascii_idem (c : ascii) :
  Str.lower_ascii (Str.lower_ascii c) = Str.lower_ascii c.
Proof.
  destruct c as [[] [] [] [] [] [] [] []]; reflexivity.
Qed.

Lemma lower_idem (s : string) : Str.lower (Str.lower s) = Str.lower s.
Proof.
  induction s as [|c s IH]; [reflexivity|].
  cbn [Str.lower]. now rewrite lower_ascii_idem, IH.
Qed.

Lemma lower_app (a b : string) :
  Str.lower (a ++ b) = (Str.lower a ++ Str.lower b)%string.
Proof.
  induction a as [|c a IH]; [reflexivity|].
  cbn [Str.lower String.append]. now rewrite IH.
Qed.

(** What the three methods and the table make of a text depends on the
    lowercased text only. *)
Lemma outputs_by_lower (t1 t2 : string) :
  Str.lower t1 = Str.lower t2 ->
  dept_scores t1 = dept_scores t2
  /\ classify_department init t1 = classify_department init t2
  /\ classify_priority init t1 = classify_priority init t2
  /\ ranked_table t1 = ranked_table t2.
Proof.
  intros E.
  assert (Hs : dept_scores t1 = dept_scores t2)
    by (unfold dept_scores; now rewrite E).
  split; [exact Hs|].
  split; [unfold classify_department; now rewrite Hs|].
  split; [unfold classify_priority; now rewrite E|].
  unfold ranked_table. now rewrite Hs.
Qed.

End CaseFacts.



(** In particular, lowercasing a text beforehand changes nothing. *)
Corollary classification_of_lowered (text : string) :
  dept_scores (Str.lower text) = dept_scores text
  /\ classify_department init (Str.lower text)
     = classify_department init text
  /\ classify_priority init (Str.lower text) = classify_priority init text
  /\ ranked_table (Str.lower text) = ranked_table text.
Proof. apply outputs_by_lower, lower_idem. Qed.

(** *** The priority *)

(** X4.  The level tells which words the text mentions: it is High exactly
    when the text mentions 'urgent', Medium exactly when it mentions
    'important' and not 'urgent', and Low exactly when it mentions neither;
    the confidence is 0.9, 0.7 and 0.6 in these cases. *)
Theorem classify_priority_cases (text : string) :
  (fst (classify_priority init text) = "High"
   <-> Str.contains "urgent" (Str.lower text) = true)
  /\ (fst (classify_priority init text) = "Medium"
      <-> Str.contains "urgent" (Str.lower text) = false
          /\ Str.contains "important" (Str.lower text) = true)
  /\ (fst (classify_priority init text) = "Low"
      <-> Str.contains "urgent" (Str.lower text) = false
          /\ Str.contains "important" (Str.lower text) = false)
  /\ In (classify_priority init text)
        [("High", 0.9%Q); ("Medium", 0.7%Q); ("Low", 0.6%Q)].
Proof.
  unfold classify_priority.
  destruct (Str.contains "urgent" (Str.lower text));
    destruct (Str.contains "important" (Str.lower text));
    cbn [fst]; repeat split; try discriminate; try tauto;
    try (intros [? ?]; discriminate); simpl; tauto.
Qed.

(** *** Which departments come first *)

Section ScoreFacts.

(** The score dictionary, department by department: the higher value when
    the word of the department is mentioned, the lower one otherwise. *)
Lemma dept_scores_by_keyword (text : string) :
  dept_scores text
  = map (fun '(dept, high, low) =>
           (dept, if mentioned text dept then high else low))
        [ ("Engineering Drawings", 0.85, 0.30); ("Legal Opinions", 0.80, 0.25);
          ("Finance", 0.75, 0.35); ("HR Policies", 0.70, 0.28);
          ("Safety Circulars", 0.90, 0.40);
          ("Board Meeting Minutes", 0.85, 0.32);
          ("Maintenance Job Cards", 0.65, 0.22);
          ("Incident Reports", 0.75, 0.26); ("Vendor Invoices", 0.70, 0.24);
          ("Purchase Order Correspondence", 0.68, 0.20);
          ("Regulatory Directives", 0.72, 0.18) ]%Q.
Proof. reflexivity. Qed.

(** A mentioned department scores 0.65 or more, another one 0.40 or less. *)
Lemma dept_scores_gap (text : string) :
  Forall (fun p => if mentioned text (fst p)
                   then 0.65 <= snd p /\ snd p <= 0.90
                   else 0.18 <= snd p /\ snd p <= 0.40)
         (dept_scores text).
Proof.
  rewrite dept_scores_by_keyword. cbn [map].
  repeat (constructor;
          [cbn [fst snd];
           match goal with
           | |- context [mentioned text ?d] => destruct (mentioned text d)
           end; split; lra|]).
  constructor.
Qed.

Lemma dept_scores_gap_in (text dept : string) (s : Q) :
  In (dept, s) (dept_scores text) ->
  if mentioned text dept
  then 0.65 <= s /\ s <= 0.90
  else 0.18 <= s /\ s <= 0.40.
Proof.
  intros H. pose proof (dept_scores_gap text) as G.
  rewrite Forall_forall in G. apply (G (dept, s) H).
Qed.

Lemma dept_scores_has (text dept : string) :
  In dept (departments init) -> exists s, In (dept, s) (dept_scores text).
Proof.
  rewrite <- (dept_scores_keys text). unfold Py.keys.
  intros H. apply in_map_iff in H as ([d s] & <- & H). now exists s.
Qed.

Lemma safety_score (text : string) :
  exists s, In ("Safety Circulars", s) (dept_scores text) /\ 0.40 <= s.
Proof.
  rewrite dept_scores_by_keyword. cbn [map].
  eexists. split; [do 4 right; left; reflexivity|].
  destruct (mentioned text "Safety Circulars"); lra.
Qed.

(** With 'safety' mentioned, 'Safety Circulars' is the primary department. *)
Lemma primary_when_safety (text : string) :
  Str.contains "safety" (Str.lower text) = true ->
  classify_department init text
  = Some ("Safety Circulars", 0.90%Q, dept_scores text).
Proof.
  intros Hs.
  destruct (classify_department_head text) as (k & v & Hc & _ & Hfm).
  assert (Hsafe : first_max snd (dept_scores text) ("Safety Circulars", 0.90%Q)).
  { unfold dept_scores. rewrite Hs.
    eexists [_; _; _; _], _. split; [reflexivity|].
    split;
      repeat (constructor;
              [cbn [snd];
               match goal with
               | |- context [if ?c then _ else _] => destruct c
               end; lra|]);
      constructor. }
  rewrite Hc. now rewrite (first_max_unique snd _ _ _ Hfm Hsafe).
Qed.

(** When no department is mentioned, the scores are those of the empty
    text. *)
Lemma dept_scores_unmentioned (text : string) :
  (forall dept, In dept (departments init) -> mentioned text dept = false) ->
  dept_scores text = dept_scores "".
Proof.
  intros H. rewrite (dept_scores_by_keyword text). cbn [map].
  rewrite !H by (simpl; tauto). reflexivity.
Qed.

(** The score of the primary department bounds every score. *)
Lemma primary_bounds_scores (text k : string) (v : Q) :
  classify_department init text = Some (k, v, dept_scores text) ->
  In (k, v) (dept_scores text)
  /\ forall dept s, In (dept, s) (dept_scores text) -> s <= v.
Proof.
  intros Hc.
  destruct (classify_department_head text) as (k' & v' & Hc' & _ & Hfm).
  rewrite Hc in Hc'. injection Hc' as <- <-.
  split; [eapply first_max_in; eassumption|].
  intros dept s Hin. pose proof (first_max_le snd _ _ Hfm) as Hle.
  rewrite Forall_forall in Hle. apply (Hle (dept, s) Hin).
Qed.

End ScoreFacts.

(** X5.  In the table, the departments whose word the text mentions stand
    before all the others: if a row's department is mentioned, so is the
    department of every row above it. *)
Theorem ranked_table_mentioned_first
        (text : string) (i j : nat) (ri rj : Row) :
  (i < j)%nat ->
  nth_error (ranked_table text) i = Some ri ->
  nth_error (ranked_table text) j = Some rj ->
  mentioned text (department_name rj) = true ->
  mentioned text (department_name ri) = true.
Proof.
  intros Hij Hi Hj. unfold ranked_table in *.
  apply table_data_nth in Hi as (ki & vi & Hi & ->).
  apply table_data_nth in Hj as (kj & vj & Hj & ->).
  cbn [department_name]. intros Hm.
  pose proof (dept_scores_distinct text) as Hnd.
  destruct (sorted_depts_order _ Hnd i j ki kj vi vj Hij Hi Hj) as [Hle _].
  apply (sorted_depts_get _ Hnd), get_some_in, dept_scores_gap_in in Hi, Hj.
  rewrite Hm in Hj.
  destruct (mentioned text ki); [reflexivity|]. lra.
Qed.

Lemma ranked_table_mentioned_first_witness :
  mentioned "Vendor and purchase records" "Vendor Invoices" = true.
Proof.
  apply (ranked_table_mentioned_first
           "Vendor and purchase records" 0 1
           {| sr_no := 1; department_name := "Vendor Invoices";
              relevance_score := "70.00%";
              summary := "Vendor payment and invoice processing";
              download_link := "#Vendor_Invoices" |}
           {| sr_no := 2; department_name := "Purchase Order Correspondence";
              relevance_score := "68.00%";
              summary := "Purchase order and procurement communications";
              download_link := "#Purchase_Order_Correspondence" |}).
  - lia.
  - vm_compute. reflexivity.
  - vm_compute. reflexivity.
  - reflexivity.
Defined.

(** X6.  A text that mentions 'safety' has 'Safety Circulars' as primary
    department, with score 0.90, whatever else it mentions, and this
    department heads the table. *)
Theorem safety_is_primary (text : string) :
  Str.contains "safety" (Str.lower text) = true ->
  classify_department init text
  = Some ("Safety Circulars", 0.90%Q, dept_scores text)
  /\ hd_error (map department_name (ranked_table text))
     = Some "Safety Circulars".
Proof.
  intros Hs. pose proof (primary_when_safety text Hs) as Hc.
  split; [exact Hc|].
  destruct (primary_heads_table text) as (k & v & r1 & rest & Hc' & Et & Hk).
  rewrite Hc in Hc'. injection Hc' as <- <-.
  rewrite Et. cbn [map hd_error]. now rewrite Hk.
Qed.

Lemma safety_is_primary_witness :
  classify_department init "Engineering board review of SAFETY valves"
  = Some ("Safety Circulars", 0.90%Q,
          dept_scores "Engineering board review of SAFETY valves")
  /\ hd_error (map department_name
                   (ranked_table "Engineering board review of SAFETY valves"))
     = Some "Safety Circulars".
Proof.
  apply (safety_is_primary "Engineering board review of SAFETY valves").
  reflexivity.
Defined.

(** X7.  A text that mentions the word of no department gets the scores of
    the empty text: 'Safety Circulars' is primary with its baseline 0.40, and
    the table lists the departments by decreasing baseline. *)
Theorem no_keyword_baseline (text : string) :
  (forall dept, In dept (departments init) -> mentioned text dept = false) ->
  dept_scores text = dept_scores ""
  /\ classify_department init text
     = Some ("Safety Circulars", 0.40%Q, dept_scores text)
  /\ map department_name (ranked_table text)
     = ["Safety Circulars"; "Finance"; "Board Meeting Minutes";
        "Engineering Drawings"; "HR Policies"; "Incident Reports";
        "Legal Opinions"; "Vendor Invoices"; "Maintenance Job Cards";
        "Purchase Order Correspondence"; "Regulatory Directives"].
Proof.
  intros H. pose proof (dept_scores_unmentioned text H) as E.
  split; [exact E|].
  unfold classify_department, ranked_table. rewrite E.
  split; vm_compute; reflexivity.
Qed.

Lemma no_keyword_baseline_witness :
  dept_scores "Minutes of the weekly meeting" = dept_scores ""
  /\ classify_department init "Minutes of the weekly meeting"
     = Some ("Safety Circulars", 0.40%Q,
             dept_scores "Minutes of the weekly meeting")
  /\ map department_name (ranked_table "Minutes of the weekly meeting")
     = ["Safety Circulars"; "Finance"; "Board Meeting Minutes";
        "Engineering Drawings"; "HR Policies"; "Incident Reports";
        "Legal Opinions"; "Vendor Invoices"; "Maintenance Job Cards";
        "Purchase Order Correspondence"; "Regulatory Directives"].
Proof.
  apply (no_keyword_baseline "Minutes of the weekly meeting").
  intros dept Hd. simpl in Hd.
  repeat (destruct Hd as [<-|Hd]; [reflexivity|]). contradiction.
Defined.

(** X8.  The score of the primary department is never below 0.40, the
    baseline of 'Safety Circulars', and never above 0.90. *)
Theorem primary_confidence_bounds (text : string) :
  exists primary confidence,
    classify_department init text
    = Some (primary, confidence, dept_scores text)
    /\ 0.40 <= confidence /\ confidence <= 0.90.
Proof.
  destruct (classify_department_head text) as (k & v & Hc & _ & _).
  exists k, v. split; [exact Hc|].
  destruct (primary_bounds_scores text k v Hc) as [Hin Hmax].
  destruct (safety_score text) as (s & Hs & Hge).
  pose proof (Hmax _ _ Hs) as Hle.
  apply dept_scores_gap_in in Hin.
  destruct (mentioned text k); split; lra.
Qed.

(** X9.  As soon as the text mentions the word of some department, the
    primary department is one that the text mentions, and its score is 0.65
    or more. *)
Theorem primary_is_mentioned (text dept : string) :
  In dept (departments init) ->
  mentioned text dept = true ->
  exists primary confidence,
    classify_department init text
    = Some (primary, confidence, dept_scores text)
    /\ mentioned text primary = true
    /\ 0.65 <= confidence.
Proof.
  intros Hd Hm.
  destruct (classify_department_head text) as (k & v & Hc & _ & _).
  exists k, v. split; [exact Hc|].
  destruct (primary_bounds_scores text k v Hc) as [Hin Hmax].
  destruct (dept_scores_has text dept Hd) as (s & Hs).
  pose proof (Hmax _ _ Hs) as Hle.
  apply dept_scores_gap_in in Hs, Hin. rewrite Hm in Hs.
  destruct (mentioned text k); [split; [reflexivity|lra]|lra].
Qed.

Lemma primary_is_mentioned_witness :
  exists primary confidence,
    classify_department init "Maintenance schedule"
    = Some (primary, confidence, dept_scores "Maintenance schedule")
    /\ mentioned "Maintenance schedule" primary = true
    /\ 0.65 <= confidence.
Proof.
  apply (primary_is_mentioned "Maintenance schedule" "Maintenance Job Cards");
    [simpl; tauto|reflexivity].
Defined.

(** *** Summaries and displayed scores *)

Section RowFacts.

(** Every row of a table comes from an entry of the score dictionary. *)
Lemma table_data_row (scores : Py.dict Q) (sums : Py.dict (Py.dict string))
      (r : Row) :
  In r (table_data scores sums) ->
  exists v,
    In (department_name r, v) scores
    /\ relevance_score r = format_percent v
    /\ summary r = dept_summary sums (department_name r)
    /\ download_link r = download_url (department_name r).
Proof.
  intros Hr. apply In_nth_error in Hr as (i & Hi).
  apply table_data_nth in Hi as (k & v & Hi & ->).
  exists v. cbn [department_name relevance_score summary download_link].
  split; [|now repeat split].
  eapply Permutation_in; [symmetry; apply sorted_depts_perm|].
  eapply nth_error_In; eassumption.
Qed.

Lemma table_data_has_row (scores : Py.dict Q)
      (sums : Py.dict (Py.dict string)) (dept : string) :
  In dept (Py.keys scores) ->
  exists r, In r (table_data scores sums) /\ department_name r = dept.
Proof.
  intros Hin.
  assert (Hd : In dept (map department_name (table_data scores sums))).
  { rewrite table_data_departments.
    eapply Permutation_in; [|exact Hin].
    apply Permutation_map, sorted_depts_perm. }
  apply in_map_iff in Hd as (r & Hr & Hrin). now exists r.
Qed.

(** Every department of the catalog has its summary. *)
Lemma catalog_summaries (self : MockDocumentProcessor) (text : string) :
  Forall (fun dept =>
            dept_summary (generate_summary self text) dept
            <> "No summary available"
            /\ Py.get (generate_summary self text) dept
               = Some [("detailed",
                        dept_summary (generate_summary self text) dept)])
         (departments init).
Proof.
  repeat (constructor; [split; [discriminate|reflexivity]|]). constructor.
Qed.

(** A score given in hundredths is shown as this number of percent with two
    zero decimals. *)
Lemma format_percent_hundredths (k : Z) :
  (0 <= k)%Z ->
  format_percent (k # 100) = (decimal k ++ ".00%")%string.
Proof.
  intros Hk. unfold format_percent.
  assert (Hq : (k # 100) * 10000 == inject_Z (100 * k)).
  { unfold Qeq, Qmult, inject_Z. cbn [Qnum Qden Pos.mul]. lia. }
  assert (Hr : round_half_even ((k # 100) * 10000) = (100 * k)%Z).
  { unfold round_half_even.
    assert (Hf : Qfloor ((k # 100) * 10000) = (100 * k)%Z)
      by (rewrite (Qfloor_comp _ _ Hq); apply Qfloor_Z).
    rewrite Hf.
    assert (Hlt : Qcompare ((k # 100) * 10000 - inject_Z (100 * k)) (1 # 2)
                  = Lt)
      by (apply Qlt_alt; rewrite Hq; unfold Qminus;
          rewrite Qplus_opp_r; reflexivity).
    now rewrite Hlt. }
  rewrite Hr.
  replace (Z.abs (100 * k)) with (k * 100)%Z by lia.
  rewrite Z.div_mul, Z.mod_mul by lia.
  replace ((100 * k <? 0)%Z) with false
    by (symmetry; apply Z.ltb_ge; lia).
  reflexivity.
Qed.

Lemma dept_scores_display (text : string) :
  Forall (fun p => exists k, (18 <= k <= 90)%Z
                             /\ format_percent (snd p)
                                = (decimal k ++ ".00%")%string)
         (dept_scores text).
Proof.
  unfold dept_scores.
  repeat (constructor;
          [cbn [snd];
           match goal with
           | |- context [if ?c then _ else _] => destruct c
           end;
           match goal with
           | |- context [format_percent (?n # _)] =>
               exists n; split; [lia|apply format_percent_hundredths; lia]
           end|]).
  constructor.
Qed.

End RowFacts.

(** X10.  A department whose summary entry has the 'detailed' field is shown
    with that text, for every score dictionary and every summary mapping. *)
Theorem summary_shown (scores : Py.dict Q) (sums : Py.dict (Py.dict string))
        (dept : string) (entry : Py.dict string) (detailed : string) :
  In dept (Py.keys scores) ->
  Py.get sums dept = Some entry ->
  Py.get entry "detailed" = Some detailed ->
  exists r, In r (table_data scores sums)
            /\ department_name r = dept
            /\ summary r = detailed.
Proof.
  intros Hin Hs He.
  destruct (table_data_has_row scores sums dept Hin) as (r & Hr & Hd).
  exists r. split; [exact Hr|]. split; [exact Hd|].
  destruct (table_data_row scores sums r Hr) as (v & _ & _ & Hsum & _).
  rewrite Hsum, Hd. unfold dept_summary, Py.get_default.
  now rewrite Hs, He.
Qed.

Lemma summary_shown_witness :
  exists r,
    In r (table_data [("Finance", 0.5); ("Depot", 0.7)]
                     [("Depot", [("short", "Depot"); ("detailed", "Depot log")])])
    /\ department_name r = "Depot"
    /\ summary r = "Depot log".
Proof.
  apply (summary_shown
           [("Finance", 0.5); ("Depot", 0.7)]
           [("Depot", [("short", "Depot"); ("detailed", "Depot log")])]
           "Depot" [("short", "Depot"); ("detailed", "Depot log")]
           "Depot log");
    [simpl; tauto|reflexivity|reflexivity].
Defined.

(** X11.  In the table of a text the placeholder never appears: every row
    carries the 'detailed' summary that [generate_summary] has for its
    department. *)
Theorem ranked_table_summaries (text : string) :
  Forall (fun r =>
            summary r <> "No summary available"
            /\ Py.get (generate_summary init text) (department_name r)
               = Some [("detailed", summary r)])
         (ranked_table text).
Proof.
  apply Forall_forall. intros r Hr. unfold ranked_table in Hr.
  destruct (table_data_row _ _ r Hr) as (v & Hin & _ & Hsum & _).
  apply (in_map fst) in Hin. cbn [fst] in Hin.
  change (In (department_name r) (Py.keys (dept_scores text))) in Hin.
  rewrite dept_scores_keys in Hin.
  pose proof (catalog_summaries init text) as Hcat.
  rewrite Forall_forall in Hcat.
  rewrite Hsum. apply (Hcat _ Hin).
Qed.

(** X12.  Every score of the table is shown as a whole number of percent
    between 18 and 90 followed by two zero decimals. *)
Theorem ranked_table_display (text : string) :
  Forall (fun r => exists k, (18 <= k <= 90)%Z
                             /\ relevance_score r
                                = (decimal k ++ ".00%")%string)
         (ranked_table text).
Proof.
  apply Forall_forall. intros r Hr. unfold ranked_table in Hr.
  destruct (table_data_row _ _ r Hr) as (v & Hin & Hscore & _).
  pose proof (dept_scores_display text) as Hd.
  rewrite Forall_forall in Hd.
  rewrite Hscore. apply (Hd _ Hin).
Qed.

(** *** Text extraction *)

Example endswith_txt : Str.endswith ".txt" "minutes.txt" = true.
Proof. reflexivity. Qed.

Example endswith_case : Str.endswith ".txt" "MINUTES.TXT" = false.
Proof. reflexivity. Qed.

Example extract_text_pdf :
  extract_text (fun _ => None) init [] "plan.pdf"
  = Some ("Sample document content from plan.pdf. This document contains information about various departments including engineering, legal, finance, HR, and safety protocols.",
          "en").
Proof. reflexivity. Qed.

Section ExtractFacts.

Lemma startswith_sep (kw a b : string) (c : ascii) :
  absent c kw = true ->
  Str.startswith kw (a ++ String c b) = Str.startswith kw a.
Proof.
  revert a. induction kw as [|k kw IH]; intros a H; [reflexivity|].
  unfold absent in H. cbn [list_ascii_of_string forallb] in H.
  apply andb_true_iff in H as [Hk Hkw].
  destruct a as [|x a]; cbn [String.append Str.startswith].
  - apply negb_true_iff in Hk. now rewrite Hk.
  - now rewrite (IH a Hkw).
Qed.

(** A word without the character [c] that occurs in [a ++ c ++ b] occurs
    in [a] or in [b]. *)
Lemma contains_sep (kw a b : string) (c : ascii) :
  absent c kw = true ->
  Str.contains kw (a ++ String c b)
  = Str.contains kw a || Str.contains kw b.
Proof.
  intros H. induction a as [|x a IH].
  - pose proof (startswith_sep kw "" b c H) as E.
    cbn [String.append] in *. cbn [Str.contains].
    now rewrite E, orb_false_r.
  - change (String x a ++ String c b)%string
      with (String x (a ++ String c b)).
    cbn [Str.contains]. rewrite IH.
    change (String x (a ++ String c b))
      with (String x a ++ String c b)%string.
    rewrite (startswith_sep kw (String x a) b c H).
    now rewrite orb_assoc.
Qed.

(** The lowercased sample text: a fixed head, the lowercased file name and
    a fixed tail, set apart by a space and a full stop. *)
Lemma lower_sample_text (filename : string) :
  Str.lower (sample_text filename)
  = ("sample document content from"
     ++ String " "
          (Str.lower filename
           ++ String "."
                " this document contains information about various departments including engineering, legal, finance, hr, and safety protocols."))%string.
Proof.
  unfold sample_text.
  change ("Sample document content from " ++ ?x)%string
    with ("Sample document content from" ++ String " " x)%string.
  rewrite lower_app. cbn [Str.lower]. rewrite lower_app. reflexivity.
Qed.

(** A word without space and full stop occurs in the lowercased sample text
    when it occurs in the lowercased file name or in one of the fixed
    parts. *)
Lemma contains_sample_text (kw filename : string) :
  absent " " kw = true ->
  absent "." kw = true ->
  Str.contains kw (Str.lower (sample_text filename))
  = Str.contains kw (Str.lower filename)
    || (Str.contains kw "sample document content from"
        || Str.contains kw
             " this document contains information about various departments including engineering, legal, finance, hr, and safety protocols.").
Proof.
  intros Hs Hd.
  rewrite lower_sample_text, (contains_sep _ _ _ _ Hs), (contains_sep _ _ _ _ Hd).
  destruct (Str.contains kw (Str.lower filename)),
           (Str.contains kw "sample document content from");
    reflexivity.
Qed.

End ExtractFacts.

Section UploadFacts.


Lemma sample_text_priority (filename : string) :
  classify_priority init (sample_text filename)
  = classify_priority init filename.
Proof.
  unfold classify_priority.
  rewrite !contains_sample_text by reflexivity.
  destruct (Str.contains "urgent" (Str.lower filename)),
           (Str.contains "important" (Str.lower filename)); reflexivity.
Qed.

Lemma sample_text_mentioned (filename dept : string) :
  mentioned (sample_text filename) dept
  = mentioned filename dept
    || existsb (String.eqb dept)
         ["Engineering Drawings"; "Legal Opinions"; "Finance"; "HR Policies";
          "Safety Circulars"].
Proof.
  unfold mentioned.
  destruct (Py.get keyword_table dept) as [kw|] eqn:E.
  - apply get_some_in in E. simpl in E.
    repeat (destruct E as [E|E];
            [injection E as <- <-;
             rewrite contains_sample_text by reflexivity;
             destruct (Str.contains _ (Str.lower filename)); reflexivity|]).
    contradiction.
  - destruct (existsb _ _) eqn:Ex; [|reflexivity].
    apply existsb_exists in Ex as (x & Hx & Heq).
    apply String.eqb_eq in Heq. subst x. simpl in Hx.
    repeat (destruct Hx as [<-|Hx]; [discriminate E|]). contradiction.
Qed.

(** A run on an uploaded file is a run on the extracted text; without a
    text it fails, and the processor is cached all the same. *)
Lemma process_document_extract
      (decode : list Byte.byte -> option string)
      (file_content : list Byte.byte) (filename : string)
      (cache : option MockDocumentProcessor) :
  process_document decode file_content filename cache
  = match extract_text decode init file_content filename with
    | Some (text, language) =>
        (option_map (fun r => (r, language)) (fst (process text cache)),
         snd (process text cache))
    | None => (None, Some (match cache with Some p => p | None => init end))
    end.
Proof.
  unfold process_document, process, get_processor.
  destruct cache as [p|];
    [change (extract_text decode p) with (extract_text decode init)|];
    (destruct (extract_text decode init file_content filename)
       as [[text language]|]; [|reflexivity]);
    [change (classify_department p text)
       with (classify_department init text)|];
    destruct (classify_department init text) as [[[? ?] ?]|]; reflexivity.
Qed.

End UploadFacts.



(** X14.  For a file that is not read, the file name decides: the priority
    is the priority of the file name taken as a text, and a department is
    mentioned when the file name mentions it or when it is one of the five
    departments that the sample text names. *)
Theorem upload_not_txt_by_name
        (decode : list Byte.byte -> option string)
        (self : MockDocumentProcessor)
        (file_content : list Byte.byte) (filename dept : string) :
  Str.endswith ".txt" filename = false ->
  exists text,
    extract_text decode self file_content filename = Some (text, "en")
    /\ classify_priority init text = classify_priority init filename
    /\ mentioned text dept
       = mentioned filename dept
         || existsb (String.eqb dept)
              ["Engineering Drawings"; "Legal Opinions"; "Finance";
               "HR Policies"; "Safety Circulars"].
Proof.
  intros Hn. exists (sample_text filename).
  unfold extract_text. rewrite Hn.
  split; [reflexivity|].
  split; [apply sample_text_priority|apply sample_text_mentioned].
Qed.

Lemma upload_not_txt_by_name_witness :
  exists text,
    extract_text (fun _ => None) init [] "urgent_vendor_note.pdf"
    = Some (text, "en")
    /\ classify_priority init text
       = classify_priority init "urgent_vendor_note.pdf"
    /\ mentioned text "Vendor Invoices"
       = mentioned "urgent_vendor_note.pdf" "Vendor Invoices"
         || existsb (String.eqb "Vendor Invoices")
              ["Engineering Drawings"; "Legal Opinions"; "Finance";
               "HR Policies"; "Safety Circulars"].
Proof.
  apply (upload_not_txt_by_name (fun _ => None) init []
                                "urgent_vendor_note.pdf" "Vendor Invoices").
  reflexivity.
Defined.

(** X15.  A file whose name ends in '.txt' is processed as its decoded
    content, with the language 'en'; when the content cannot be decoded the
    run fails without a result, and the processor stays cached. *)
Theorem upload_txt
        (decode : list Byte.byte -> option string)
        (file_content : list Byte.byte) (filename : string)
        (cache : option MockDocumentProcessor) :
  Str.endswith ".txt" filename = true ->
  process_document decode file_content filename cache
  = match decode file_content with
    | Some text =>
        (option_map (fun r => (r, "en")) (fst (process text cache)),
         snd (process text cache))
    | None => (None, Some (match cache with Some p => p | None => init end))
    end.
Proof.
  intros Ht. rewrite process_document_extract.
  unfold extract_text. rewrite Ht.
  destruct (decode file_content); reflexivity.
Qed.

Lemma upload_txt_witness :
  process_document (fun bytes => Some (string_of_list_byte bytes))
                   (list_byte_of_string "Urgent: vendor invoice") "note.txt"
                   None
  = (option_map (fun r => (r, "en"))
                (fst (process "Urgent: vendor invoice" None)),
     snd (process "Urgent: vendor invoice" None)).
Proof.
  apply (upload_txt (fun bytes => Some (string_of_list_byte bytes))
                    (list_byte_of_string "Urgent: vendor invoice")
                    "note.txt" None).
  reflexivity.
Defined.

(** *** Several runs in one session *)

(** X16.  The runs of a session do not interfere: each text gets the result
    it would get in a fresh session, whatever the cache held at the start and
    whichever texts were processed before; after the first run the cache
    holds the processor it will hold for good. *)
Theorem process_all_independent
        (texts : list string) (cache : option MockDocumentProcessor) :
  fst (process_all texts cache)
  = map (fun text => fst (process text None)) texts
  /\ snd (process_all texts cache)
     = match texts with
       | [] => cache
       | _ :: _ => Some (match cache with Some p => p | None => init end)
       end.
Proof.
  revert cache. induction texts as [|text texts IH]; intros cache.
  - now split.
  - destruct (classify_department_head text) as (k & v & Hc & _ & _).
    cbn [process_all map].
    rewrite (process_returns text k v cache Hc),
            (process_returns text k v None Hc).
    destruct (IH (Some (match cache with Some p => p | None => init end)))
      as [IH1 IH2].
    destruct (process_all texts _) as [results cache''].
    cbn [fst snd] in *. rewrite IH1. split; [reflexivity|].
    rewrite IH2. now destruct texts.
Qed.
